(** * Friday chat client: streaming decoders, conversation store, dispatcher
      and persistence, embedded from the TypeScript sources.

    - [Js]        the JavaScript string and JSON-value primitives the code uses
    - [Api]       services/api: [sendMessageStream], [ragQueryStream]
    - [Index]     pages/Index: [handleMessageSent], [handleRetryMessage]
    - [ChatInput] components/ChatInput: [handleSubmit]
    - [Storage]   hooks/usePersistentStorage: the save effect

    Strings are sequences of 8-bit code units: [trim] removes the white
    space of that range, and [toLowerCase] is modelled on the ASCII
    letters. *)

From Stdlib Require Import List String Ascii Bool Arith ZArith Lia.
From Stdlib Require Import DecimalString.
Import ListNotations.
Open Scope string_scope.
Set Warnings "-register-all".

(* ================================================================= *)
(** ** JavaScript primitives *)

Module Js.

Definition newline : ascii := "010"%char.
Definition dquote : ascii := "034"%char.
Definition squote : ascii := "039"%char.

(** [is_space c]: the white space removed by [String.prototype.trim], as
    far as it lies in the 8-bit range: tab to carriage return, the space and
    the no-break space (code unit 160). *)
Definition is_space (c : ascii) : bool :=
  let n := nat_of_ascii c in
  (n =? 32)%nat || ((9 <=? n)%nat && (n <=? 13)%nat) || (n =? 160)%nat.

(** [s.startsWith(p)] *)
Definition startsWith (s p : string) : bool := String.prefix p s.

(** [s.slice(n)] for [0 <= n]. *)
Fixpoint slice (n : nat) (s : string) : string :=
  match n, s with
  | O, _ => s
  | S _, EmptyString => EmptyString
  | S k, String _ r => slice k r
  end.

(** [s.slice(0, n)] for [0 <= n]. *)
Fixpoint take (n : nat) (s : string) : string :=
  match n, s with
  | O, _ => EmptyString
  | S _, EmptyString => EmptyString
  | S k, String c r => String c (take k r)
  end.

Fixpoint trimStart (s : string) : string :=
  match s with
  | EmptyString => EmptyString
  | String c r => if is_space c then trimStart r else s
  end.

Fixpoint trimEnd (s : string) : string :=
  match s with
  | EmptyString => EmptyString
  | String c r =>
      let r' := trimEnd r in
      if is_space c && (r' =? "") then EmptyString else String c r'
  end.

(** [s.trim()] *)
Definition trim (s : string) : string := trimEnd (trimStart s).

(** [s.split('\n')]: never empty, [""] splits into [[""]]. *)
Fixpoint split (s : string) : list string :=
  match s with
  | EmptyString => [EmptyString]
  | String c r =>
      if Ascii.eqb c newline then EmptyString :: split r
      else match split r with
           | [] => [String c EmptyString]
           | h :: t => String c h :: t
           end
  end.

(** [s.includes(needle)] *)
Definition includes (s needle : string) : bool :=
  match String.index 0 needle s with
  | Some _ => true
  | None => false
  end.

Definition lower_char (c : ascii) : ascii :=
  let n := nat_of_ascii c in
  if (65 <=? n)%nat && (n <=? 90)%nat then ascii_of_nat (n + 32) else c.

(** [s.toLowerCase()] *)
Fixpoint toLowerCase (s : string) : string :=
  match s with
  | EmptyString => EmptyString
  | String c r => String (lower_char c) (toLowerCase r)
  end.

(** [n.toString()] / template interpolation of an integer. *)
Definition showZ (z : Z) : string := NilEmpty.string_of_int (Z.to_int z).

(** Values produced by [JSON.parse].  A number carries the text that
    JavaScript's number-to-string conversion gives for it; the only number
    [JSON.parse] can produce that is falsy is zero, printed ["0"]. *)
Inductive JsValue : Type :=
| JNull
| JBool (b : bool)
| JNum (shown : string)
| JStr (s : string)
| JArr (items : list JsValue)
| JObj (fields : list (string * JsValue)).

(** [find_last k fs]: JSON.parse keeps the last binding of a repeated key. *)
Fixpoint find_last (k : string) (fs : list (string * JsValue)) : option JsValue :=
  match fs with
  | [] => None
  | (k', v) :: r =>
      match find_last k r with
      | Some w => Some w
      | None => if k' =? k then Some v else None
      end
  end.

(** [v.k] for a value [v] other than [null] and one of the keys the code
    reads ([text], [content], [response], [assistant_id], [thread_id]);
    [None] is [undefined].  Reading a property of [null] throws and is
    handled where the read happens. *)
Definition prop (v : JsValue) (k : string) : option JsValue :=
  match v with
  | JObj fs => find_last k fs
  | _ => None
  end.

(** Truthiness. *)
Definition truthy (v : JsValue) : bool :=
  match v with
  | JNull => false
  | JBool b => b
  | JNum shown => negb (shown =? "0")
  | JStr s => negb (s =? "")
  | JArr _ => true
  | JObj _ => true
  end.

Definition truthy_opt (o : option JsValue) : bool :=
  match o with
  | Some v => truthy v
  | None => false
  end.

(** [a || b] *)
Definition or_else (a b : option JsValue) : option JsValue :=
  if truthy_opt a then a else b.

(** The string a value turns into when it is appended to a string. *)
Fixpoint toStr (v : JsValue) : string :=
  match v with
  | JNull => "null"
  | JBool true => "true"
  | JBool false => "false"
  | JNum shown => shown
  | JStr s => s
  | JArr items =>
      String.concat ","
        ((fix each (l : list JsValue) : list string :=
            match l with
            | [] => []
            | JNull :: r => EmptyString :: each r
            | x :: r => toStr x :: each r
            end) items)
  | JObj _ => "[object Object]"
  end.

Definition toStr_opt (o : option JsValue) : string :=
  match o with
  | Some v => toStr v
  | None => "undefined"
  end.

End Js.

(* ================================================================= *)
(** ** A JSON reader for the worked examples

    The decoders below take [JSON.parse] as a parameter.  The examples run
    them with [Json.parse], which reads the JSON documents made of objects,
    arrays, strings without [\u] escapes, integers of at most fifteen digits,
    [true], [false] and [null], and rejects every other text. *)

Module Json.
Import Js.

Fixpoint skip_ws (s : string) : string :=
  match s with
  | String c r =>
      let n := nat_of_ascii c in
      if (n =? 32)%nat || (n =? 9)%nat || (n =? 10)%nat || (n =? 13)%nat then skip_ws r else s
  | EmptyString => EmptyString
  end.

Definition unescape (c : ascii) : option ascii :=
  let n := nat_of_ascii c in
  if (n =? 34)%nat then Some c
  else if (n =? 92)%nat then Some c
  else if (n =? 47)%nat then Some c
  else if (n =? 98)%nat then Some (ascii_of_nat 8)
  else if (n =? 102)%nat then Some (ascii_of_nat 12)
  else if (n =? 110)%nat then Some (ascii_of_nat 10)
  else if (n =? 114)%nat then Some (ascii_of_nat 13)
  else if (n =? 116)%nat then Some (ascii_of_nat 9)
  else None.

(** The characters of a string literal after its opening quote. *)
Fixpoint string_body (s : string) : option (string * string) :=
  match s with
  | EmptyString => None
  | String c r =>
      let n := nat_of_ascii c in
      if (n =? 34)%nat then Some (EmptyString, r)
      else if (n <? 32)%nat then None
      else if (n =? 92)%nat then
        match r with
        | String e r' =>
            match unescape e, string_body r' with
            | Some x, Some (body, rest) => Some (String x body, rest)
            | _, _ => None
            end
        | EmptyString => None
        end
      else
        match string_body r with
        | Some (body, rest) => Some (String c body, rest)
        | None => None
        end
  end.

Definition is_digit (c : ascii) : bool :=
  let n := nat_of_ascii c in (48 <=? n)%nat && (n <=? 57)%nat.

Fixpoint digits (s : string) : string * string :=
  match s with
  | String c r =>
      if is_digit c then let (d, rest) := digits r in (String c d, rest)
      else (EmptyString, s)
  | EmptyString => (EmptyString, EmptyString)
  end.

Definition ends_number (rest : string) : bool :=
  match rest with
  | String c _ =>
      let n := nat_of_ascii c in
      negb ((n =? 46)%nat || (n =? 101)%nat || (n =? 69)%nat)
  | EmptyString => true
  end.

(** An integer literal: ["0"], or a non-zero digit followed by digits. *)
Definition number (s : string) : option (JsValue * string) :=
  let (neg, s1) :=
    match s with
    | String c r => if (nat_of_ascii c =? 45)%nat then (true, r) else (false, s)
    | EmptyString => (false, s)
    end in
  let (d, rest) := digits s1 in
  if (d =? "") || negb (ends_number rest) || (15 <? String.length d)%nat then None
  else if d =? "0" then Some (JNum "0", rest)
  else if String.prefix "0" d then None
  else Some (JNum (if neg then String "-" d else d), rest).

Fixpoint value (fuel : nat) (s : string) : option (JsValue * string) :=
  match fuel with
  | O => None
  | S fuel' =>
      match skip_ws s with
      | EmptyString => None
      | String c r =>
          let n := nat_of_ascii c in
          if (n =? 123)%nat then
            match skip_ws r with
            | String c' r' =>
                if (nat_of_ascii c' =? 125)%nat then Some (JObj [], r')
                else members fuel' (String c' r') []
            | EmptyString => None
            end
          else if (n =? 91)%nat then
            match skip_ws r with
            | String c' r' =>
                if (nat_of_ascii c' =? 93)%nat then Some (JArr [], r')
                else elements fuel' (String c' r') []
            | EmptyString => None
            end
          else if (n =? 34)%nat then
            match string_body r with
            | Some (body, rest) => Some (JStr body, rest)
            | None => None
            end
          else if String.prefix "true" (String c r) then Some (JBool true, slice 4 (String c r))
          else if String.prefix "false" (String c r) then Some (JBool false, slice 5 (String c r))
          else if String.prefix "null" (String c r) then Some (JNull, slice 4 (String c r))
          else number (String c r)
      end
  end
with members (fuel : nat) (s : string) (acc : list (string * JsValue))
  : option (JsValue * string) :=
  match fuel with
  | O => None
  | S fuel' =>
      match skip_ws s with
      | String c r =>
          if (nat_of_ascii c =? 34)%nat then
            match string_body r with
            | Some (key, r1) =>
                match skip_ws r1 with
                | String c1 r2 =>
                    if (nat_of_ascii c1 =? 58)%nat then
                      match value fuel' r2 with
                      | Some (v, r3) =>
                          match skip_ws r3 with
                          | String c3 r4 =>
                              if (nat_of_ascii c3 =? 44)%nat then members fuel' r4 (acc ++ [(key, v)])
                              else if (nat_of_ascii c3 =? 125)%nat then Some (JObj (acc ++ [(key, v)]), r4)
                              else None
                          | EmptyString => None
                          end
                      | None => None
                      end
                    else None
                | EmptyString => None
                end
            | None => None
            end
          else None
      | EmptyString => None
      end
  end
with elements (fuel : nat) (s : string) (acc : list JsValue)
  : option (JsValue * string) :=
  match fuel with
  | O => None
  | S fuel' =>
      match value fuel' s with
      | Some (v, r1) =>
          match skip_ws r1 with
          | String c r2 =>
              if (nat_of_ascii c =? 44)%nat then elements fuel' r2 (acc ++ [v])
              else if (nat_of_ascii c =? 93)%nat then Some (JArr (acc ++ [v]), r2)
              else None
          | EmptyString => None
          end
      | None => None
      end
  end.

Definition parse (s : string) : option JsValue :=
  match value (S (String.length s)) s with
  | Some (v, rest) => if skip_ws rest =? "" then Some v else None
  | None => None
  end.

(** [json s]: [s] with every single quote turned into a double quote, to
    write JSON texts legibly. *)
Fixpoint json (s : string) : string :=
  match s with
  | EmptyString => EmptyString
  | String c r => String (if Ascii.eqb c squote then dquote else c) (json r)
  end.

(** [ln s]: the line [s] with its line feed. *)
Definition ln (s : string) : string := s ++ String newline EmptyString.

End Json.


(* ================================================================= *)
(** ** services/api: the two streaming operations *)

Module Api.
Import Js.

(** What [fetch] resolves to: the status line, the text of the body (read
    by [response.text()] on a failure status) and, when the body is
    readable, the decoded chunks that [reader.read()] delivers before it
    reports [done]. *)
Record Response : Type := mkResponse {
  ok : bool;
  status : Z;
  errorText : string;
  body : option (list string)
}.

(** [fetch] either rejects with an error message or resolves. *)
Inductive Fetch : Type :=
| Rejected (message : string)
| Resolved (r : Response).

(** Calls made on the callbacks, in the order they are made. *)
Inductive Callback : Type :=
| OnChunk (accumulated : string)
| OnAssistantId (id : JsValue)
| OnThreadId (id : JsValue).

Inductive Completion : Type :=
| Returned (accumulatedText : string)
| Thrown (message : string).

(** A finished call: the callback calls it made and how it ended. *)
Record Run : Type := mkRun {
  calls : list Callback;
  completion : Completion
}.

(** The cumulative-text snapshots among the callback calls. *)
Fixpoint snapshots (cs : list Callback) : list string :=
  match cs with
  | [] => []
  | OnChunk s :: r => s :: snapshots r
  | _ :: r => snapshots r
  end.

(** How the body of a [for ... of] loop ends. *)
Inductive Flow : Type := Next | Break.

(** The local variables of [ragQueryStream]'s read loop, with the
    callback calls made so far. *)
Record Decoder : Type := mkDecoder {
  accumulatedText : string;
  receivedData : bool;
  made : list Callback
}.

(** [accumulatedText += t; receivedData = true; onChunk(accumulatedText)] *)
Definition appendText (t : string) (d : Decoder) : Decoder :=
  {| accumulatedText := accumulatedText d ++ t;
     receivedData := true;
     made := (made d ++ [OnChunk (accumulatedText d ++ t)])%list |}.

Definition call (c : Callback) (d : Decoder) : Decoder :=
  {| accumulatedText := accumulatedText d;
     receivedData := receivedData d;
     made := (made d ++ [c])%list |}.

(** [data.text || data.content || data.response] *)
Definition textContent (data : JsValue) : option JsValue :=
  or_else (or_else (prop data "text") (prop data "content")) (prop data "response").

Section Streams.

(** [JSON.parse]: [None] when it throws. *)
Variable JSON_parse : string -> option JsValue.

(** Whether the optional callbacks were passed. *)
Variables onAssistantId onThreadId : bool.

(** *** sendMessageStream *)

(** One line of a chunk; the state is the accumulated text and the
    [onChunk] calls made. *)
Definition chatLine (line : string) (st : string * list Callback)
  : string * list Callback :=
  if startsWith line "data: " then
    match JSON_parse (slice 6 line) with
    | None => st                      (* catch: console.warn *)
    | Some JNull => st                (* data.text throws; catch *)
    | Some data =>
        if truthy_opt (prop data "text") then
          let acc := fst st ++ toStr_opt (prop data "text") in
          (acc, (snd st ++ [OnChunk acc])%list)
        else st
    end
  else st.

Definition chatChunk (st : string * list Callback) (chunk : string)
  : string * list Callback :=
  fold_left (fun st line => chatLine line st) (split chunk) st.

Definition chatLoop (chunks : list string) (st : string * list Callback)
  : string * list Callback :=
  fold_left chatChunk chunks st.

Definition sendMessageStream (f : Fetch) : Run :=
  match f with
  | Rejected e => mkRun [] (Thrown e)
  | Resolved r =>
      if negb (ok r) then
        mkRun [] (Thrown ("HTTP error! status: " ++ showZ (status r)))
      else
        match body r with
        | None => mkRun [] (Thrown "Response body is not readable")
        | Some chunks =>
            let st := chatLoop chunks (EmptyString, []) in
            mkRun (snd st) (Returned (fst st))
        end
  end.

(** *** ragQueryStream *)

(** The three [if]s of the [try] block once [data] is parsed. *)
Definition ragData (data : JsValue) (d : Decoder) : Decoder :=
  let d1 :=
    if truthy_opt (textContent data)
    then appendText (toStr_opt (textContent data)) d
    else d in
  let d2 :=
    match prop data "assistant_id" with
    | Some id => if truthy id && onAssistantId then call (OnAssistantId id) d1 else d1
    | None => d1
    end in
  match prop data "thread_id" with
  | Some id => if truthy id && onThreadId then call (OnThreadId id) d2 else d2
  | None => d2
  end.

(** The [catch] block of an event-data line. *)
Definition ragRaw (line : string) (d : Decoder) : Decoder :=
  let rawText := trim (slice 6 line) in
  if negb (rawText =? "") && negb (rawText =? "[DONE]")
  then appendText rawText d
  else d.

(** A line that starts with ["data: "]. *)
Definition ragEventLine (line : string) (d : Decoder) : Decoder * Flow :=
  let jsonData := trim (slice 6 line) in
  if jsonData =? "[DONE]" then (d, Break)
  else
    match JSON_parse jsonData with
    | None => (ragRaw line d, Next)
    | Some JNull => (ragRaw line d, Next)   (* data.text throws *)
    | Some data => (ragData data d, Next)
    end.

(** A non-blank line without the prefix. *)
Definition ragPlainLine (line : string) (d : Decoder) : Decoder :=
  match JSON_parse line with
  | None => appendText line d
  | Some JNull => appendText line d          (* data.text throws *)
  | Some data =>
      if truthy_opt (textContent data)
      then appendText (toStr_opt (textContent data)) d
      else d
  end.

Definition ragLine (line : string) (d : Decoder) : Decoder * Flow :=
  if trim line =? "" then (d, Next)
  else if startsWith line "data: " then ragEventLine line d
  else if negb (trim line =? "") then (ragPlainLine line d, Next)
  else (d, Next).

(** [for (const line of lines) { ... }], left by [break]. *)
Fixpoint ragLines (lines : list string) (d : Decoder) : Decoder :=
  match lines with
  | [] => d
  | line :: rest =>
      match ragLine line d with
      | (d', Break) => d'
      | (d', Next) => ragLines rest d'
      end
  end.

Definition ragChunk (d : Decoder) (chunk : string) : Decoder :=
  ragLines (split chunk) d.

(** [while (true) { read; if (done) break; ... }] *)
Definition ragLoop (chunks : list string) (d : Decoder) : Decoder :=
  fold_left ragChunk chunks d.

Definition ragStart : Decoder :=
  {| accumulatedText := EmptyString; receivedData := false; made := [] |}.

Definition ragQueryStream (f : Fetch) : Run :=
  match f with
  | Rejected e => mkRun [] (Thrown e)
  | Resolved r =>
      if negb (ok r) then
        mkRun [] (Thrown ("HTTP error! status: " ++ showZ (status r)
                           ++ " - " ++ errorText r))
      else
        match body r with
        | None => mkRun [] (Thrown "Response body is not readable")
        | Some chunks =>
            let d := ragLoop chunks ragStart in
            if negb (receivedData d)
            then mkRun (made d) (Thrown "No response data received from server")
            else mkRun (made d) (Returned (accumulatedText d))
        end
  end.

End Streams.

(** A response with a readable body. *)
Definition streaming (chunks : list string) : Fetch :=
  Resolved (mkResponse true 200 EmptyString (Some chunks)).

End Api.


(* ================================================================= *)
(** ** pages/Index: the conversation store *)

Module Index.
Import Js.

Inductive Role : Type := user | assistant.

Inductive ErrorType : Type := network | timeout | server | client | unknown.

(** A [File]; the code reads its name only. *)
Record File : Type := mkFile { name : string }.

(** Optional fields are [None] when absent ([undefined]). *)
Record Message : Type := mkMessage {
  role : Role;
  content : string;
  isNew : option bool;
  isThinking : option bool;
  isError : option bool;
  errorType : option ErrorType;
  timestamp : Z;
  id : string
}.

Record Conversation : Type := mkConversation {
  conv_id : string;
  title : string;
  messages : list Message;
  document : option File
}.

(** The component state the handlers read and write.
    [currentConversationId = None] is [null]. *)
Record State : Type := mkState {
  conversations : list Conversation;
  currentConversationId : option string;
  showWelcome : bool;
  messageCount : nat;
  isLoading : bool
}.

Definition is_assistant (m : Message) : bool :=
  match role m with assistant => true | user => false end.

Definition is_user (m : Message) : bool :=
  match role m with user => true | assistant => false end.

(** [currentConversationId] used as a condition: [null] and [""] are falsy. *)
Definition selected (c : option string) : bool :=
  match c with
  | Some i => negb (i =? "")
  | None => false
  end.

(** [conv.id === currentConversationId] *)
Definition is_current (conv : Conversation) (c : option string) : bool :=
  match c with
  | Some i => conv_id conv =? i
  | None => false
  end.

(** [isErrorResponse] *)
Definition isErrorResponse (aiResponse : string) : bool :=
  includes (toLowerCase aiResponse) "sorry, i encountered an error"
  || includes (toLowerCase aiResponse) "failed to"
  || includes (toLowerCase aiResponse) "error occurred".

(** The object the update path returns for the last assistant message. *)
Definition updated (aiResponse : string) (msg : Message) : Message :=
  {| role := role msg;
     content := aiResponse;
     isNew := Some false;
     isThinking := Some false;
     isError := Some (isErrorResponse aiResponse);
     errorType := if isErrorResponse aiResponse then Some server else None;
     timestamp := timestamp msg;
     id := id msg |}.

(** [conv.messages.map((msg, index) => ...)]: [rest] is
    [conv.messages.slice(index + 1)], empty exactly at the last index. *)
Fixpoint updateMessages (aiResponse : string) (msgs : list Message) : list Message :=
  match msgs with
  | [] => []
  | msg :: rest =>
      let isLastAssistantMessage :=
        is_assistant msg
        && ((match rest with [] => true | _ => false end)
            || negb (existsb is_assistant rest)) in
      (if isLastAssistantMessage then updated aiResponse msg else msg)
        :: updateMessages aiResponse rest
  end.

(** [isTargetConversation], with [seen] the [currentConversationId] of the
    render that created the handler. *)
Definition isTargetConversation (seen : option string) (prevConvs : list Conversation)
    (conv : Conversation) : bool :=
  is_current conv seen
  || ((match seen with None => true | Some _ => false end)
      && (List.length prevConvs =? 1)%nat).

Definition updateConversation (aiResponse : string) (conv : Conversation) : Conversation :=
  {| conv_id := conv_id conv;
     title := title conv;
     messages := updateMessages aiResponse (messages conv);
     document := document conv |}.

Definition appendMessages (newMessages : list Message) (conv : Conversation) : Conversation :=
  {| conv_id := conv_id conv;
     title := title conv;
     messages := (messages conv ++ newMessages)%list;
     document := document conv |}.

(** The pair of messages of the append path; [now] is the clock reading. *)
Definition newMessages (now : Z) (userMessage aiResponse : string) : list Message :=
  let isThinkingResponse := aiResponse =? "Unico AI is thinking..." in
  [ {| role := user;
       content := userMessage;
       isNew := Some true;
       isThinking := None;
       isError := None;
       errorType := None;
       timestamp := now;
       id := "user-" ++ showZ now |};
    {| role := assistant;
       content := aiResponse;
       isNew := None;
       isThinking := Some isThinkingResponse;
       isError := None;
       errorType := None;
       timestamp := (now + 1)%Z;
       id := "assistant-" ++ showZ now |} ].

(** [userMessage.slice(0, 20) + (userMessage.length > 20 ? '...' : '')] *)
Definition titleOf (userMessage : string) : string :=
  take 20 userMessage ++ (if (20 <? String.length userMessage)%nat then "..." else "").

(** [handleMessageSent(userMessage, aiResponse, isUpdate)] as created by a
    render that saw [currentConversationId = seen]; state setters are
    applied to the latest state [s]. *)
Definition handleMessageSent (seen : option string) (now : Z)
    (userMessage aiResponse : string) (isUpdate : bool) (s : State) : State :=
  if isUpdate then
    let prevConvs := conversations s in
    {| conversations :=
         map (fun conv =>
                if isTargetConversation seen prevConvs conv
                then updateConversation aiResponse conv
                else conv) prevConvs;
       currentConversationId :=
         match seen, prevConvs with
         | None, [conv] => Some (conv_id conv)
         | _, _ => currentConversationId s
         end;
       showWelcome := showWelcome s;
       messageCount := messageCount s;
       isLoading := false |}
  else
    let isThinkingResponse := aiResponse =? "Unico AI is thinking..." in
    let loading := if isThinkingResponse then true else isLoading s in
    if selected seen then
      {| conversations :=
           map (fun conv =>
                  if is_current conv seen
                  then appendMessages (newMessages now userMessage aiResponse) conv
                  else conv) (conversations s);
         currentConversationId := currentConversationId s;
         showWelcome := false;
         messageCount := messageCount s + 2;
         isLoading := loading |}
    else
      let newConversation :=
        {| conv_id := showZ now;
           title := titleOf userMessage;
           messages := newMessages now userMessage aiResponse;
           document := None |} in
      {| conversations := newConversation :: conversations s;
         currentConversationId := Some (showZ now);
         showWelcome := false;
         messageCount := messageCount s + 2;
         isLoading := loading |}.

(** [handleDocumentUploaded(file)] *)
Definition handleDocumentUploaded (seen : option string) (file : option File)
    (s : State) : State :=
  if selected seen then
    {| conversations :=
         map (fun conv =>
                if is_current conv seen
                then {| conv_id := conv_id conv; title := title conv;
                        messages := messages conv; document := file |}
                else conv) (conversations s);
       currentConversationId := currentConversationId s;
       showWelcome := showWelcome s;
       messageCount := messageCount s;
       isLoading := isLoading s |}
  else s.

(** [getCurrentConversation()] *)
Definition getCurrentConversation (s : State) : option Conversation :=
  find (fun conv => is_current conv (currentConversationId s)) (conversations s).

(** [messages.findIndex(msg => msg.id === messageId)], with the messages
    before the one found; [None] is [-1]. *)
Fixpoint findIndex (messageId : string) (before : list Message) (msgs : list Message)
  : option (list Message * Message) :=
  match msgs with
  | [] => None
  | msg :: rest =>
      if id msg =? messageId then Some (before, msg)
      else findIndex messageId (before ++ [msg]) rest
  end.

(** [handleRetryMessage(messageId)], run from the current render.  Its
    whole effect is one call of [handleMessageSent]; it starts no request. *)
Definition handleRetryMessage (now : Z) (messageId : string) (s : State) : State :=
  match getCurrentConversation s with
  | None => s
  | Some currentConv =>
      match findIndex messageId [] (messages currentConv) with
      | None => s
      | Some (before, message) =>
          if is_assistant message then
            (* currentConv.messages[messageIndex - 1] *)
            match last (map Some before) None with
            | Some userMessage =>
                if is_user userMessage
                then handleMessageSent (currentConversationId s) now
                       (content userMessage) "Unico AI is thinking..." false s
                else s
            | None => s
            end
          else s
      end
  end.

End Index.

(* ================================================================= *)
(** ** components/ChatInput: the dispatcher *)

Module ChatInput.
Import Js Api Index.

Inductive Tool : Type := chat | deepSearch | markdown.

(** The component state [handleSubmit] reads and writes. *)
Record State : Type := mkState {
  message : string;
  selectedTool : Tool;
  attachedFile : option File;
  isStreaming : bool;
  assistantId : option JsValue;
  threadId : option JsValue
}.

(** The remote operations of services/api that [handleSubmit] calls. *)
Inductive Request : Type :=
| RagQueryStream (question : string) (file : File)
| PerformDeepSearch (query : string)
| SendMessage (message : string).

(** What a non-streaming call resolves to: it throws ([Failed]), or
    returns [response.data], falsy ([Empty]) or not ([Data]). *)
Inductive Reply (A : Type) : Type :=
| Failed
| Empty
| Data (a : A).
Arguments Failed {A}.
Arguments Empty {A}.
Arguments Data {A} a.

(** Everything [handleSubmit] does to the outside, in program order. *)
Inductive Effect : Type :=
| SetMessage (m : string)
| SetIsStreaming (b : bool)
| SetAssistantId (id : JsValue)
| SetThreadId (id : JsValue)
| MessageSent (userMessage aiResponse : string) (isUpdate : bool)
| Call (r : Request)
| DocumentUploaded (file : File)
| Toast (description : string).

(** [attachedFile || conversationDocument] *)
Definition documentToUse (attachedFile conversationDocument : option File) : option File :=
  match attachedFile with
  | Some f => Some f
  | None => conversationDocument
  end.

Definition toolName (doc : option File) (tool : Tool) : string :=
  match doc with
  | Some _ => "RAG query"
  | None =>
      match tool with
      | deepSearch => "web search"
      | markdown => "markdown conversion"
      | chat => "message"
      end
  end.

(** The [catch] block. *)
Definition onError (userMessage : string) (doc : option File) (tool : Tool) : list Effect :=
  [ SetIsStreaming false;
    MessageSent userMessage
      ("Sorry, I encountered an error while processing your "
         ++ toolName doc tool ++ ". Please try again.") true;
    Toast ("Failed to " ++ toolName doc tool ++ ". Please try again.") ].

(** The three callbacks passed to [ragQueryStream]. *)
Definition onCallback (userMessage : string) (c : Callback) : Effect :=
  match c with
  | OnChunk accumulated => MessageSent userMessage accumulated true
  | OnAssistantId i => SetAssistantId i
  | OnThreadId i => SetThreadId i
  end.

Definition markdownPrompt (userMessage : string) : string :=
  "Convert the following text to well-formatted markdown: " ++ userMessage.

Section Dispatch.

Variable JSON_parse : string -> option JsValue.

(** The payload of the search endpoint and [formatSearchResults], which
    is [None] when it throws. *)
Variable SearchData : Type.
Variable formatSearchResults : SearchData -> option string.

(** The remote service. [sendMessage] answers with the [response] field
    of its data, [""] when the field is missing. *)
Record Remote : Type := mkRemote {
  ragStream : string -> File -> Fetch;
  performDeepSearch : string -> Reply SearchData;
  sendMessage : string -> Reply string
}.

Variable remote : Remote.

(** [const data = await sendMessage(m); if (!data || !data.response) throw;
    response = data.response; onMessageSent(userMessage, response, true)] *)
Definition chatReply (userMessage m : string) (doc : option File) (tool : Tool)
  : list Effect :=
  Call (SendMessage m) ::
  match sendMessage remote m with
  | Data response =>
      if response =? "" then onError userMessage doc tool
      else [MessageSent userMessage response true]
  | _ => onError userMessage doc tool
  end.

(** [handleSubmit], with the [conversationDocument] property. *)
Definition handleSubmit (conversationDocument : option File) (st : State)
  : list Effect :=
  if (trim (message st) =? "") || isStreaming st then []
  else
    let userMessage := message st in
    let doc := documentToUse (attachedFile st) conversationDocument in
    let tool := selectedTool st in
    SetMessage "" ::
    MessageSent userMessage "Friday is thinking..." false ::
    match doc with
    | Some file =>
        let run := ragQueryStream JSON_parse true true (ragStream remote userMessage file) in
        SetIsStreaming true ::
        Call (RagQueryStream userMessage file) ::
        (map (onCallback userMessage) (calls run) ++
         match completion run with
         | Returned _ =>
             match attachedFile st with
             | Some f => [DocumentUploaded f; SetIsStreaming false]
             | None => [SetIsStreaming false]
             end
         | Thrown _ => onError userMessage doc tool
         end)%list
    | None =>
        match tool with
        | deepSearch =>
            Call (PerformDeepSearch userMessage) ::
            match performDeepSearch remote userMessage with
            | Data searchData =>
                match formatSearchResults searchData with
                | Some response => [MessageSent userMessage response true]
                | None => onError userMessage doc tool
                end
            | _ => onError userMessage doc tool
            end
        | markdown => chatReply userMessage (markdownPrompt userMessage) doc tool
        | chat => chatReply userMessage userMessage doc tool
        end
    end.

End Dispatch.

(** The requests among the effects. *)
Fixpoint requests (es : list Effect) : list Request :=
  match es with
  | [] => []
  | Call r :: rest => r :: requests rest
  | _ :: rest => requests rest
  end.

(** The effect of one call on the store: [onMessageSent] is
    [Index.handleMessageSent] and [onDocumentUploaded] is
    [Index.handleDocumentUploaded], both created by the render that saw
    [currentConversationId = seen]. *)
Definition perform (seen : option string) (now : Z) (s : Index.State) (e : Effect)
  : Index.State :=
  match e with
  | MessageSent userMessage aiResponse isUpdate =>
      handleMessageSent seen now userMessage aiResponse isUpdate s
  | DocumentUploaded file => handleDocumentUploaded seen (Some file) s
  | _ => s
  end.

(** The store after each effect, in order. *)
Fixpoint stores (seen : option string) (now : Z) (s : Index.State) (es : list Effect)
  : list Index.State :=
  match es with
  | [] => []
  | e :: rest => perform seen now s e :: stores seen now (perform seen now s e) rest
  end.

Definition runEffects (seen : option string) (now : Z) (s : Index.State) (es : list Effect)
  : Index.State :=
  fold_left (perform seen now) es s.

End ChatInput.

(* ================================================================= *)
(** ** hooks/usePersistentStorage: the save effect *)

Module Storage.
Import Index.

Definition STORAGE_KEY : string := "unico-chat-conversations".
Definition MAX_CONVERSATIONS : nat := 50.

(** The value handed to [JSON.stringify] stands for the item written:
    a [document] of [None] is written as [null], a [File] as [{}]. *)
Definition Item : Type := list Conversation.

Definition withoutDocument (conv : Conversation) : Conversation :=
  {| conv_id := conv_id conv;
     title := title conv;
     messages := messages conv;
     document := None |}.

(** One run of the save effect: the writes attempted, in order, the item
    under [STORAGE_KEY] afterwards, and whether an exception left the
    effect. *)
Record Saved : Type := mkSaved {
  attempts : list Item;
  stored : option Item;
  crashed : bool
}.

Section Save.

(** [localStorage.setItem(STORAGE_KEY, JSON.stringify(item))] succeeds
    ([true]) or throws. *)
Variable setItem : Item -> bool.

Definition saveEffect (isLoaded : bool) (conversations : list Conversation)
    (before : option Item) : Saved :=
  if negb isLoaded then mkSaved [] before false
  else
    let conversationsToSave :=
      map withoutDocument (firstn MAX_CONVERSATIONS conversations) in
    if setItem conversationsToSave
    then mkSaved [conversationsToSave] (Some conversationsToSave) false
    else
      let reducedConversations := firstn (MAX_CONVERSATIONS / 2) conversations in
      if setItem reducedConversations
      then mkSaved [conversationsToSave; reducedConversations]
             (Some reducedConversations) false
      else mkSaved [conversationsToSave; reducedConversations] before false.

End Save.

End Storage.

(* ================================================================= *)
(** ** components/ChatInput: the state setters and the input's texts *)

Module ChatInputView.
Import Js Index ChatInput.

(** The state setter an effect stands for; the other effects leave the
    component state alone. *)
Definition setState (st : ChatInput.State) (e : Effect) : ChatInput.State :=
  match e with
  | SetMessage m =>
      {| message := m; selectedTool := selectedTool st; attachedFile := attachedFile st;
         isStreaming := isStreaming st; assistantId := assistantId st;
         threadId := threadId st |}
  | SetIsStreaming b =>
      {| message := message st; selectedTool := selectedTool st;
         attachedFile := attachedFile st; isStreaming := b;
         assistantId := assistantId st; threadId := threadId st |}
  | SetAssistantId i =>
      {| message := message st; selectedTool := selectedTool st;
         attachedFile := attachedFile st; isStreaming := isStreaming st;
         assistantId := Some i; threadId := threadId st |}
  | SetThreadId i =>
      {| message := message st; selectedTool := selectedTool st;
         attachedFile := attachedFile st; isStreaming := isStreaming st;
         assistantId := assistantId st; threadId := Some i |}
  | _ => st
  end.

(** The component state once all the setters of a run have been applied. *)
Definition afterEffects (st : ChatInput.State) (es : list Effect) : ChatInput.State :=
  fold_left setState es st.

(** [getPlaceholderText()] *)
Definition getPlaceholderText (attachedFile conversationDocument : option File)
    (selectedTool : Tool) : string :=
  match documentToUse attachedFile conversationDocument with
  | Some _ => "Ask a question about your attached document..."
  | None =>
      match selectedTool with
      | deepSearch => "Search the web..."
      | markdown => "Enter text to convert to markdown..."
      | chat => "Ask anything"
      end
  end.

(** [getToolDisplayName()] *)
Definition getToolDisplayName (selectedTool : Tool) : string :=
  match selectedTool with
  | deepSearch => "Web Search"
  | markdown => "Markdown"
  | chat => "Tools"
  end.

(** The toasts among the effects. *)
Fixpoint toasts (es : list Effect) : list string :=
  match es with
  | [] => []
  | Toast description :: rest => description :: toasts rest
  | _ :: rest => toasts rest
  end.

(** The files handed to [onDocumentUploaded]. *)
Fixpoint uploads (es : list Effect) : list File :=
  match es with
  | [] => []
  | DocumentUploaded file :: rest => file :: uploads rest
  | _ :: rest => uploads rest
  end.

End ChatInputView.

(* ================================================================= *)
(** ** utils/fileUtils: validation of an uploaded file *)

Module FileUtils.
Import Js.

(** The fields of a [File] that the validation reads. *)
Record File : Type := mkFile { type : string; size : Z }.

(** [SUPPORTED_FILE_TYPES]: the MIME types with their extensions, in the
    order of the object literal (the [name] and [icon] fields are not read
    by the validation). *)
Definition SUPPORTED_FILE_TYPES : list (string * string) :=
  [ ("application/pdf", ".pdf");
    ("text/plain", ".txt");
    ("application/msword", ".doc");
    ("application/vnd.openxmlformats-officedocument.wordprocessingml.document", ".docx");
    ("text/markdown", ".md");
    ("application/rtf", ".rtf");
    ("text/csv", ".csv");
    ("application/json", ".json") ].

(** The property names every object literal inherits from
    [Object.prototype]; looking one of them up gives a truthy value. *)
Definition inherited : list string :=
  [ "constructor"; "hasOwnProperty"; "isPrototypeOf"; "propertyIsEnumerable";
    "toLocaleString"; "toString"; "valueOf"; "__proto__";
    "__defineGetter__"; "__defineSetter__"; "__lookupGetter__"; "__lookupSetter__" ].

(** [SUPPORTED_FILE_TYPES[fileType]] is truthy. *)
Definition known (fileType : string) : bool :=
  existsb (fun entry => fst entry =? fileType) SUPPORTED_FILE_TYPES
  || existsb (fun key => key =? fileType) inherited.

(** [Object.values(SUPPORTED_FILE_TYPES).map(type => type.extension).join(', ')] *)
Definition supportedExtensions : string :=
  String.concat ", " (map snd SUPPORTED_FILE_TYPES).

Definition maxSize : Z := 50 * 1024 * 1024.

Record Validation : Type := mkValidation { isValid : bool; error : option string }.

(** [validateFileType(file)] *)
Definition validateFileType (file : File) : Validation :=
  if negb (known (type file)) then
    {| isValid := false;
       error := Some ("Unsupported file type. Supported formats: " ++ supportedExtensions) |}
  else if (maxSize <? size file)%Z then
    {| isValid := false;
       error := Some "File size too large. Maximum size is 50MB." |}
  else {| isValid := true; error := None |}.

End FileUtils.

(* ================================================================= *)
(** ** services/api: detectLanguage

    The character classes of this function lie outside the 8-bit range, so
    its text is a sequence of UTF-16 code units. *)

Module Lang.

Definition Text : Type := list N.

Definition lt : N := 60.   (* < *)
Definition gt : N := 62.   (* > *)

(** [text.replace(/<[^>]*>/g, '')]: from a [<] up to the next [>], when
    there is one; a [<] with no [>] after it stays, with all that follows. *)
Fixpoint stripTags (text : Text) : Text :=
  match text with
  | [] => []
  | c :: rest =>
      if (c =? lt)%N then
        if existsb (fun x => (x =? gt)%N) rest then inTag rest else c :: rest
      else c :: stripTags rest
  end
with inTag (text : Text) : Text :=
  match text with
  | [] => []
  | c :: rest => if (c =? gt)%N then stripTags rest else inTag rest
  end.

(** White space and line terminators, as [trim] removes them. *)
Definition is_space (c : N) : bool :=
  ((9 <=? c) && (c <=? 13) || (c =? 32) || (c =? 160) || (c =? 5760)
   || (8192 <=? c) && (c <=? 8202) || (c =? 8232) || (c =? 8233)
   || (c =? 8239) || (c =? 8287) || (c =? 12288) || (c =? 65279))%N.

Fixpoint trimStart (text : Text) : Text :=
  match text with
  | [] => []
  | c :: rest => if is_space c then trimStart rest else text
  end.

Definition trim (text : Text) : Text := rev (trimStart (rev (trimStart text))).

(** [/[\ulo-\uhi]/.test(text)] *)
Definition test (lo hi : N) (text : Text) : bool :=
  existsb (fun c => (lo <=? c) && (c <=? hi))%N text.

(** [detectLanguage(text)] *)
Definition detectLanguage (text : Text) : string :=
  let cleanText := trim (stripTags text) in
  if test 2304 2431 cleanText then "hi-IN"        (* 0900-097F *)
  else if test 2688 2815 cleanText then "gu-IN"   (* 0A80-0AFF *)
  else if test 2944 3071 cleanText then "ta-IN"   (* 0B80-0BFF *)
  else if test 3072 3199 cleanText then "te-IN"   (* 0C00-0C7F *)
  else if test 3200 3327 cleanText then "kn-IN"   (* 0C80-0CFF *)
  else if test 3328 3455 cleanText then "ml-IN"   (* 0D00-0D7F *)
  else if test 2432 2559 cleanText then "bn-IN"   (* 0980-09FF *)
  else if test 2560 2687 cleanText then "pa-IN"   (* 0A00-0A7F *)
  else "en-US".

End Lang.

(* ================================================================= *)
(** ** components/MessageTimestamp: the relative time label *)

Module Timestamp.
Import Js.

Section Label.

(** [timestamp.toLocaleDateString()] *)
Variable localeDate : string.

(** [updateTimeString], with [diff = now.getTime() - timestamp.getTime()]
    in milliseconds; [Math.floor] of a quotient is the floor division. *)
Definition timeString (diff : Z) : string :=
  let minutes := (diff / 60000)%Z in
  let hours := (minutes / 60)%Z in
  let days := (hours / 24)%Z in
  if (minutes <? 1)%Z then "Just now"
  else if (minutes <? 60)%Z then showZ minutes ++ "m ago"
  else if (hours <? 24)%Z then showZ hours ++ "h ago"
  else if (days <? 7)%Z then showZ days ++ "d ago"
  else localeDate.

End Label.

End Timestamp.

(* ================================================================= *)
(** ** Vocabulary of the properties *)

Import Js Api.

(** [b] is [a] followed by more text. *)
Definition extends (a b : string) : Prop := exists d, b = a ++ d.

(** Every element of the list extends the one before it. *)
Definition prefix_monotone (l : list string) : Prop :=
  forall i a b,
    nth_error l i = Some a ->
    nth_error l (S i) = Some b ->
    extends a b /\ String.prefix a b = true /\ String.length a <= String.length b.

(** [grows a l z]: starting from the text [a], each element of [l] is the
    text before it with something appended, and the last text is [z]. *)
Inductive grows : string -> list string -> string -> Prop :=
| grows_nil : forall a, grows a [] a
| grows_cons : forall a d l z, grows (a ++ d) l z -> grows a ((a ++ d) :: l) z.

(** A step of the document-QA decoder from [d] to [d']: callback calls are
    only added, the snapshots among the added calls grow from the text of [d]
    to the text of [d'], and [receivedData] is raised exactly when a snapshot
    is emitted. *)
Definition rag_step (d d' : Decoder) : Prop :=
  exists new,
    made d' = (made d ++ new)%list /\
    grows (accumulatedText d) (snapshots new) (accumulatedText d') /\
    receivedData d' = receivedData d || negb (Nat.eqb (List.length (snapshots new)) 0).

(** The same for the plain chat decoder, whose state is a pair. *)
Definition chat_step (st st' : string * list Callback) : Prop :=
  exists new,
    snd st' = (snd st ++ new)%list /\
    grows (fst st) (snapshots new) (fst st').

(** A line carrying the terminal sentinel. *)
Definition is_sentinel (line : string) : Prop :=
  startsWith line "data: " = true /\ trim (slice 6 line) = "[DONE]".

(** The responses written by in-place updates ([isUpdate = true]), in order. *)
Fixpoint updates (es : list ChatInput.Effect) : list string :=
  match es with
  | [] => []
  | ChatInput.MessageSent _ aiResponse true :: rest => aiResponse :: updates rest
  | _ :: rest => updates rest
  end.

(** The content matches one of the three error phrases. *)
Definition has_error_phrase (aiResponse : string) : Prop :=
  includes (toLowerCase aiResponse) "sorry, i encountered an error" = true \/
  includes (toLowerCase aiResponse) "failed to" = true \/
  includes (toLowerCase aiResponse) "error occurred" = true.

(** [msg] is the last assistant message of [msgs]. *)
Definition trailing_assistant (msgs pre : list Index.Message) (msg : Index.Message)
    (post : list Index.Message) : Prop :=
  msgs = (pre ++ msg :: post)%list /\
  Index.is_assistant msg = true /\
  existsb Index.is_assistant post = false.

(** [handleSubmit] gets past its guard. *)
Definition accepted (st : ChatInput.State) : Prop :=
  trim (ChatInput.message st) <> "" /\ ChatInput.isStreaming st = false.

(** The one request the mode-selection rule prescribes. *)
Definition dispatched (conversationDocument : option Index.File) (st : ChatInput.State)
  : ChatInput.Request :=
  match ChatInput.attachedFile st, conversationDocument with
  | Some file, _ => ChatInput.RagQueryStream (ChatInput.message st) file
  | None, Some file => ChatInput.RagQueryStream (ChatInput.message st) file
  | None, None =>
      match ChatInput.selectedTool st with
      | ChatInput.deepSearch => ChatInput.PerformDeepSearch (ChatInput.message st)
      | ChatInput.markdown =>
          ChatInput.SendMessage
            ("Convert the following text to well-formatted markdown: "
               ++ ChatInput.message st)
      | ChatInput.chat => ChatInput.SendMessage (ChatInput.message st)
      end
  end.

(** The [isThinking] flags of all messages, conversation by conversation. *)
Definition thinkingFlags (s : Index.State) : list (list (option bool)) :=
  map (fun conv => map Index.isThinking (Index.messages conv)) (Index.conversations s).

(* ================================================================= *)
(** ** Inputs of the worked examples *)

Module Examples.
Import Index ChatInput.

(** The store of a fresh session. *)
Definition emptyStore : Index.State :=
  {| conversations := []; currentConversationId := None; showWelcome := true;
     messageCount := 0; isLoading := false |}.

Definition paper : File := {| name := "paper.pdf" |}.

(** A question typed with a document attached. *)
Definition question : ChatInput.State :=
  {| message := "What is the answer?"; selectedTool := chat;
     attachedFile := Some paper; isStreaming := false;
     assistantId := None; threadId := None |}.

(** A plain chat message. *)
Definition hello : ChatInput.State :=
  {| message := "hi"; selectedTool := chat; attachedFile := None;
     isStreaming := false; assistantId := None; threadId := None |}.

(** The frames of the document-QA scenario: two text frames, then the
    sentinel. *)
Definition answerFrames : list string :=
  [ Json.ln (Json.json "data: {'text':'The '}");
    Json.ln (Json.json "data: {'text':'answer is 42.'}");
    Json.ln "data: [DONE]" ].

(** A service that streams [answerFrames] and answers a chat message with
    the given text. *)
Definition service (answer : Reply string) : Remote unit :=
  {| ragStream := fun _ _ => streaming answerFrames;
     performDeepSearch := fun _ => Failed;
     sendMessage := fun _ => answer |}.

Definition noFormat (_ : unit) : option string := None.

(** The store after a submission typed in a fresh session has appended its
    pair of messages at clock reading 1000. *)
Definition submitted (userMessage : string) : Index.State :=
  handleMessageSent None 1000 userMessage "Friday is thinking..." false emptyStore.

(** The two messages that submission appended. *)
Definition userTurn (userMessage : string) : Message :=
  {| role := user; content := userMessage; isNew := Some true; isThinking := None;
     isError := None; errorType := None; timestamp := 1000; id := "user-1000" |}.

Definition placeholder : Message :=
  {| role := assistant; content := "Friday is thinking..."; isNew := None;
     isThinking := Some false; isError := None; errorType := None;
     timestamp := 1001; id := "assistant-1000" |}.

Definition submittedConversation (userMessage : string) : Conversation :=
  {| conv_id := "1000"; title := titleOf userMessage;
     messages := [userTurn userMessage; placeholder]; document := None |}.

(** The store once that submission has failed. *)
Definition failed : Index.State :=
  handleMessageSent None 1000 "hi"
    "Sorry, I encountered an error while processing your message. Please try again."
    true (submitted "hi").

(** A store whose placeholder was appended by the retry path. *)
Definition retried : Index.State := handleRetryMessage 2000 "assistant-1000" failed.

(** Thirty conversations, each with a bound document. *)
Definition thirty : list Conversation :=
  map (fun n => {| conv_id := showZ (Z.of_nat n); title := "Chat";
                   messages := []; document := Some paper |}) (seq 1 30).

(** A storage that has room for twenty-five conversations. *)
Definition room25 (item : Storage.Item) : bool := (List.length item <=? 25)%nat.

End Examples.

(** [m'] is the message [m] at a later time: the same role, id and
    timestamp, and the very same message when it is a user message. *)
Definition same_turn (m m' : Index.Message) : Prop :=
  Index.role m' = Index.role m /\
  Index.id m' = Index.id m /\
  Index.timestamp m' = Index.timestamp m /\
  (Index.is_user m = true -> m' = m).

(** [c'] is the conversation [c] at a later time: the same id, title and
    document, and the messages of [c], turn by turn, possibly followed by
    new ones. *)
Definition evolves (c c' : Index.Conversation) : Prop :=
  Index.conv_id c' = Index.conv_id c /\
  Index.title c' = Index.title c /\
  Index.document c' = Index.document c /\
  exists olds extra,
    Index.messages c' = (olds ++ extra)%list /\
    Forall2 same_turn (Index.messages c) olds.

(** The text holds a code unit between [lo] and [hi]. *)
Definition has_unit (lo hi : N) (text : Lang.Text) : Prop :=
  exists c, In c text /\ (lo <= c <= hi)%N.

(** A request that gives no readable stream: [fetch] rejects, the status is
    a failure, or the response has no body to read. *)
Definition unreadable (f : Fetch) : Prop :=
  match f with
  | Rejected _ => True
  | Resolved r => ok r = false \/ body r = None
  end.

(** Two decoder states that agree on the text: the same accumulated text,
    the same [receivedData] and the same snapshots emitted so far. *)
Definition same_text (d d' : Decoder) : Prop :=
  accumulatedText d = accumulatedText d' /\
  receivedData d = receivedData d' /\
  snapshots (made d) = snapshots (made d').

(** The assistant message a placeholder becomes when [aiResponse] is written
    over the pair appended at clock reading [now]. *)
Definition answered (now : Z) (aiResponse : string) : Index.Message :=
  {| Index.role := Index.assistant;
     Index.content := aiResponse;
     Index.isNew := Some false;
     Index.isThinking := Some false;
     Index.isError := Some (Index.isErrorResponse aiResponse);
     Index.errorType := if Index.isErrorResponse aiResponse then Some Index.server else None;
     Index.timestamp := (now + 1)%Z;
     Index.id := "assistant-" ++ showZ now |}.

(** The user message appended at clock reading [now]. *)
Definition asked (now : Z) (userMessage : string) : Index.Message :=
  {| Index.role := Index.user;
     Index.content := userMessage;
     Index.isNew := Some true;
     Index.isThinking := None;
     Index.isError := None;
     Index.errorType := None;
     Index.timestamp := now;
     Index.id := "user-" ++ showZ now |}.

(** [text] is the answer the service gave to a submission without a
    document: the non-empty [response] field of the chat call, made on the
    message or, in markdown mode, on the message behind the instruction; in
    web-search mode the search payload as [formatSearchResults] renders it. *)
Definition service_answer {SearchData : Type}
    (formatSearchResults : SearchData -> option string)
    (remote : ChatInput.Remote SearchData) (st : ChatInput.State) (text : string) : Prop :=
  match ChatInput.selectedTool st with
  | ChatInput.chat =>
      ChatInput.sendMessage SearchData remote (ChatInput.message st) = ChatInput.Data text
      /\ text <> ""
  | ChatInput.markdown =>
      ChatInput.sendMessage SearchData remote
        ("Convert the following text to well-formatted markdown: " ++ ChatInput.message st)
        = ChatInput.Data text
      /\ text <> ""
  | ChatInput.deepSearch =>
      exists searchData,
        ChatInput.performDeepSearch SearchData remote (ChatInput.message st)
          = ChatInput.Data searchData
        /\ formatSearchResults searchData = Some text
  end.

(* ================================================================= *)
(** ** Proofs *)

(** *** Strings *)

Lemma append_empty_r (s : string) : s ++ "" = s.
Proof. induction s as [|c s IH]; simpl; [reflexivity | now rewrite IH]. Qed.

Lemma append_assoc (a b c : string) : (a ++ b) ++ c = a ++ (b ++ c).
Proof. induction a as [|x a IH]; simpl; [reflexivity | now rewrite IH]. Qed.

Lemma length_append (a b : string) :
  String.length (a ++ b) = String.length a + String.length b.
Proof. induction a as [|x a IH]; simpl; [reflexivity | now rewrite IH]. Qed.

Lemma prefix_append (a d : string) : String.prefix a (a ++ d) = true.
Proof.
  induction a as [|x a IH]; simpl.
  - now destruct d.
  - destruct (ascii_dec x x) as [_|ne]; [exact IH | now elim ne].
Qed.

Lemma extends_refl (a : string) : extends a a.
Proof. exists ""; now rewrite append_empty_r. Qed.

Lemma extends_trans (a b c : string) : extends a b -> extends b c -> extends a c.
Proof. intros [d ->] [e ->]. exists (d ++ e). apply append_assoc. Qed.

Lemma extends_facts (a b : string) :
  extends a b -> extends a b /\ String.prefix a b = true /\ String.length a <= String.length b.
Proof.
  intros [d ->]. split; [now exists d|]. split; [apply prefix_append|].
  rewrite length_append. lia.
Qed.

(** *** Growing lists of snapshots *)

Lemma grows_one (a d : string) : grows a [a ++ d] (a ++ d).
Proof. apply grows_cons, grows_nil. Qed.

Lemma grows_app (a b c : string) (l l' : list string) :
  grows a l b -> grows b l' c -> grows a (l ++ l') c.
Proof.
  induction 1 as [a|a d l z _ IH]; intros H'; simpl.
  - exact H'.
  - apply grows_cons, IH, H'.
Qed.

Lemma grows_extends (a z : string) (l : list string) : grows a l z -> extends a z.
Proof.
  induction 1 as [a|a d l z _ IH].
  - apply extends_refl.
  - eapply extends_trans; [now exists d | exact IH].
Qed.

Lemma grows_monotone_from (a z : string) (l : list string) :
  grows a l z -> prefix_monotone (a :: l).
Proof.
  induction 1 as [a|a d l z _ IH]; intros i x y Hx Hy.
  - destruct i; simpl in Hy; [discriminate | now destruct i].
  - destruct i as [|i]; simpl in Hx, Hy.
    + injection Hx as <-. injection Hy as <-. apply extends_facts. now exists d.
    + apply (IH i x y); assumption.
Qed.

Lemma grows_monotone (a z : string) (l : list string) :
  grows a l z -> prefix_monotone l.
Proof.
  intros H i x y Hx Hy.
  apply (grows_monotone_from _ _ _ H (S i) x y); assumption.
Qed.

Lemma snapshots_app (l l' : list Callback) :
  snapshots (l ++ l') = (snapshots l ++ snapshots l')%list.
Proof.
  induction l as [|c l IH]; simpl; [reflexivity|].
  destruct c; simpl; now rewrite IH.
Qed.

(** *** The plain chat decoder only appends *)

Lemma chat_step_refl (st : string * list Callback) : chat_step st st.
Proof. exists []. split; [now rewrite app_nil_r | apply grows_nil]. Qed.

Lemma chat_step_trans (a b c : string * list Callback) :
  chat_step a b -> chat_step b c -> chat_step a c.
Proof.
  intros [n1 [E1 G1]] [n2 [E2 G2]]. exists (n1 ++ n2)%list. split.
  - now rewrite E2, E1, app_assoc.
  - rewrite snapshots_app. eapply grows_app; eassumption.
Qed.

Lemma chat_step_fold {A : Type} (f : string * list Callback -> A -> string * list Callback) :
  (forall st x, chat_step st (f st x)) ->
  forall l st, chat_step st (fold_left f l st).
Proof.
  intros Hf l. induction l as [|x l IH]; intros st; simpl.
  - apply chat_step_refl.
  - eapply chat_step_trans; [apply Hf | apply IH].
Qed.

Section ChatDecoder.
Variable JSON_parse : string -> option JsValue.

Lemma chatLine_step (line : string) (st : string * list Callback) :
  chat_step st (chatLine JSON_parse line st).
Proof.
  unfold chatLine.
  destruct (startsWith line "data: "); [|apply chat_step_refl].
  destruct (JSON_parse (slice 6 line)) as [data|]; [|apply chat_step_refl].
  assert (Hgo : chat_step st
            (if truthy_opt (prop data "text")
             then (fst st ++ toStr_opt (prop data "text"),
                   (snd st ++ [OnChunk (fst st ++ toStr_opt (prop data "text"))])%list)
             else st)).
  { destruct (truthy_opt (prop data "text")); [|apply chat_step_refl].
    eexists. split; [reflexivity | apply grows_one]. }
  destruct data; exact Hgo.
Qed.

Lemma chatLoop_step (chunks : list string) (st : string * list Callback) :
  chat_step st (chatLoop JSON_parse chunks st).
Proof.
  apply chat_step_fold. intros st' chunk. unfold chatChunk.
  apply chat_step_fold. intros st'' line. apply chatLine_step.
Qed.

Lemma sendMessageStream_grows (f : Fetch) :
  exists z, grows "" (snapshots (calls (sendMessageStream JSON_parse f))) z.
Proof.
  destruct f as [e|r]; simpl; [exists ""; apply grows_nil|].
  destruct (ok r); simpl; [|exists ""; apply grows_nil].
  destruct (body r) as [chunks|]; simpl; [|exists ""; apply grows_nil].
  destruct (chatLoop_step chunks ("", [])) as [new [E G]].
  simpl in E, G. rewrite E. eexists. exact G.
Qed.

End ChatDecoder.

(** *** The document-QA decoder only appends *)

Lemma rag_step_refl (d : Decoder) : rag_step d d.
Proof.
  exists []. repeat split.
  - now rewrite app_nil_r.
  - apply grows_nil.
  - simpl. now rewrite orb_false_r.
Qed.

Lemma rag_step_trans (a b c : Decoder) : rag_step a b -> rag_step b c -> rag_step a c.
Proof.
  intros [n1 [E1 [G1 R1]]] [n2 [E2 [G2 R2]]]. exists (n1 ++ n2)%list. repeat split.
  - now rewrite E2, E1, app_assoc.
  - rewrite snapshots_app. eapply grows_app; eassumption.
  - rewrite R2, R1, snapshots_app, length_app.
    destruct (receivedData a); simpl; [reflexivity|].
    destruct (List.length (snapshots n1)); simpl; [reflexivity|].
    reflexivity.
Qed.

Lemma appendText_step (t : string) (d : Decoder) : rag_step d (appendText t d).
Proof.
  exists [OnChunk (accumulatedText d ++ t)]. repeat split.
  - apply grows_one.
  - simpl. now rewrite orb_true_r.
Qed.

Lemma call_step (c : Callback) (d : Decoder) :
  snapshots [c] = [] -> rag_step d (call c d).
Proof.
  intros Hc. exists [c]. repeat split.
  - rewrite Hc. apply grows_nil.
  - rewrite Hc. simpl. now rewrite orb_false_r.
Qed.

Create HintDb rag.
#[local] Hint Resolve rag_step_refl appendText_step : rag.

Section RagDecoder.
Variable JSON_parse : string -> option JsValue.
Variables onAssistantId onThreadId : bool.

Lemma ragData_step (data : JsValue) (d : Decoder) :
  rag_step d (ragData onAssistantId onThreadId data d).
Proof.
  unfold ragData.
  set (d1 := if truthy_opt (textContent data) then _ else d).
  assert (H1 : rag_step d d1) by (subst d1; destruct (truthy_opt _); auto with rag).
  set (d2 := match prop data "assistant_id" with Some _ => _ | None => d1 end).
  assert (H2 : rag_step d d2).
  { subst d2. destruct (prop data "assistant_id") as [i|]; [|exact H1].
    destruct (truthy i && onAssistantId); [|exact H1].
    eapply rag_step_trans; [exact H1 | now apply call_step]. }
  destruct (prop data "thread_id") as [i|]; [|exact H2].
  destruct (truthy i && onThreadId); [|exact H2].
  eapply rag_step_trans; [exact H2 | now apply call_step].
Qed.

Lemma ragRaw_step (line : string) (d : Decoder) : rag_step d (ragRaw line d).
Proof. unfold ragRaw. destruct (_ && _); auto with rag. Qed.

Lemma ragPlainLine_step (line : string) (d : Decoder) :
  rag_step d (ragPlainLine JSON_parse line d).
Proof.
  unfold ragPlainLine. destruct (JSON_parse line) as [data|]; [|auto with rag].
  destruct data; try (destruct (truthy_opt _)); auto with rag.
Qed.

Lemma ragLine_step (line : string) (d : Decoder) :
  rag_step d (fst (ragLine JSON_parse onAssistantId onThreadId line d)).
Proof.
  unfold ragLine. destruct (trim line =? ""); cbn [fst negb]; [auto with rag|].
  destruct (startsWith line "data: "); cbn [fst]; [|apply ragPlainLine_step].
  unfold ragEventLine.
  destruct (trim (slice 6 line) =? "[DONE]"); cbn [fst]; [auto with rag|].
  destruct (JSON_parse (trim (slice 6 line))) as [data|]; cbn [fst]; [|apply ragRaw_step].
  destruct data; cbn [fst]; try apply ragData_step. apply ragRaw_step.
Qed.

Lemma ragLines_step (lines : list string) (d : Decoder) :
  rag_step d (ragLines JSON_parse onAssistantId onThreadId lines d).
Proof.
  revert d. induction lines as [|line rest IH]; intros d; simpl; [auto with rag|].
  pose proof (ragLine_step line d) as H.
  destruct (ragLine JSON_parse onAssistantId onThreadId line d) as [d' [|]]; simpl in H.
  - eapply rag_step_trans; [exact H | apply IH].
  - exact H.
Qed.

Lemma ragLoop_step (chunks : list string) (d : Decoder) :
  rag_step d (ragLoop JSON_parse onAssistantId onThreadId chunks d).
Proof.
  revert d. induction chunks as [|chunk rest IH]; intros d; simpl; [auto with rag|].
  eapply rag_step_trans; [apply ragLines_step | apply IH].
Qed.

Lemma ragQueryStream_grows (f : Fetch) :
  exists z,
    grows "" (snapshots (calls (ragQueryStream JSON_parse onAssistantId onThreadId f))) z.
Proof.
  destruct f as [e|r]; simpl; [exists ""; apply grows_nil|].
  destruct (ok r); simpl; [|exists ""; apply grows_nil].
  destruct (body r) as [chunks|]; simpl; [|exists ""; apply grows_nil].
  destruct (ragLoop_step chunks ragStart) as [new [E [G _]]].
  simpl in E, G. exists (accumulatedText (ragLoop JSON_parse onAssistantId onThreadId chunks ragStart)).
  destruct (receivedData _); simpl; rewrite E; exact G.
Qed.

(** The empty-response guard of [ragQueryStream]: the operation throws
    exactly when the readable stream ended without any snapshot. *)
Lemma ragQueryStream_empty_guard (chunks : list string) :
  let run := ragQueryStream JSON_parse onAssistantId onThreadId (streaming chunks) in
  (snapshots (calls run) = [] ->
     completion run = Thrown "No response data received from server") /\
  (snapshots (calls run) <> [] -> exists text, completion run = Returned text).
Proof.
  simpl. destruct (ragLoop_step chunks ragStart) as [new [E [_ R]]].
  simpl in E, R. rewrite R.
  destruct (snapshots new) as [|x l] eqn:Hs; simpl; rewrite E, Hs.
  - split; [reflexivity | now intros H].
  - split; [discriminate | intros _; eexists; reflexivity].
Qed.

End RagDecoder.

(** *** Arrival order *)

Lemma sendMessageStream_arrival (JSON_parse : string -> option JsValue)
    (chunks more : list string) :
  exists later,
    calls (sendMessageStream JSON_parse (streaming (chunks ++ more)))
      = (calls (sendMessageStream JSON_parse (streaming chunks)) ++ later)%list.
Proof.
  simpl. unfold chatLoop. rewrite fold_left_app.
  destruct (chatLoop_step JSON_parse more (fold_left (chatChunk JSON_parse) chunks ("", [])))
    as [new [E _]].
  exists new. exact E.
Qed.

Lemma ragQueryStream_calls (JSON_parse : string -> option JsValue)
    (onAssistantId onThreadId : bool) (chunks : list string) :
  calls (ragQueryStream JSON_parse onAssistantId onThreadId (streaming chunks))
    = made (ragLoop JSON_parse onAssistantId onThreadId chunks ragStart).
Proof. simpl. now destruct (receivedData _). Qed.

Lemma ragQueryStream_arrival (JSON_parse : string -> option JsValue)
    (onAssistantId onThreadId : bool) (chunks more : list string) :
  exists later,
    calls (ragQueryStream JSON_parse onAssistantId onThreadId (streaming (chunks ++ more)))
      = (calls (ragQueryStream JSON_parse onAssistantId onThreadId (streaming chunks))
         ++ later)%list.
Proof.
  rewrite !ragQueryStream_calls. unfold ragLoop. rewrite fold_left_app.
  destruct (ragLoop_step JSON_parse onAssistantId onThreadId more
              (fold_left (ragChunk JSON_parse onAssistantId onThreadId) chunks ragStart))
    as [new [E _]].
  exists new. exact E.
Qed.

(** C1: in both streaming operations the cumulative-text snapshots handed to
    the update callback form a prefix-monotone sequence: each snapshot is the
    previous one with text appended, so it has the previous one as a prefix
    and is at least as long; the first one extends the empty text.  The
    sequence follows arrival: what is emitted for the chunks read so far is
    never revised by the chunks that arrive later, only continued. *)
Theorem C1_snapshots_prefix_monotone :
  forall (JSON_parse : string -> option JsValue) (onAssistantId onThreadId : bool) (f : Fetch),
    prefix_monotone (snapshots (calls (sendMessageStream JSON_parse f))) /\
    prefix_monotone
      (snapshots (calls (ragQueryStream JSON_parse onAssistantId onThreadId f))) /\
    (exists z, grows "" (snapshots (calls (sendMessageStream JSON_parse f))) z) /\
    (exists z, grows ""
                 (snapshots (calls (ragQueryStream JSON_parse onAssistantId onThreadId f))) z) /\
    (forall chunks more, exists later,
       snapshots (calls (sendMessageStream JSON_parse (streaming (chunks ++ more))))
         = (snapshots (calls (sendMessageStream JSON_parse (streaming chunks)))
            ++ later)%list) /\
    (forall chunks more, exists later,
       snapshots (calls (ragQueryStream JSON_parse onAssistantId onThreadId
                           (streaming (chunks ++ more))))
         = (snapshots (calls (ragQueryStream JSON_parse onAssistantId onThreadId
                                (streaming chunks)))
            ++ later)%list).
Proof.
  intros parse a t f.
  destruct (sendMessageStream_grows parse f) as [z1 G1].
  destruct (ragQueryStream_grows parse a t f) as [z2 G2].
  split; [eapply grows_monotone; exact G1|].
  split; [eapply grows_monotone; exact G2|].
  split; [eexists; eassumption|].
  split; [eexists; eassumption|].
  split; intros chunks more.
  - destruct (sendMessageStream_arrival parse chunks more) as [later ->].
    exists (snapshots later). apply snapshots_app.
  - destruct (ragQueryStream_arrival parse a t chunks more) as [later ->].
    exists (snapshots later). apply snapshots_app.
Qed.

(** *** The empty-response guard *)

Lemma grows_none (a z : string) : grows a [] z -> z = a.
Proof. now inversion 1. Qed.

(** [sendMessageStream] has no such guard: on a readable stream it always
    returns the accumulated text, which is empty when nothing was emitted. *)
Lemma sendMessageStream_never_guards (JSON_parse : string -> option JsValue)
    (chunks : list string) :
  let run := sendMessageStream JSON_parse (streaming chunks) in
  exists text, completion run = Returned text /\
               (snapshots (calls run) = [] -> text = "").
Proof.
  simpl. eexists. split; [reflexivity|].
  destruct (chatLoop_step JSON_parse chunks ("", [])) as [new [E G]].
  simpl in E, G. rewrite E. intros Hs. rewrite Hs in G. now apply grows_none in G.
Qed.

(** C4 (evaluated where the code departs from it): the plain chat stream
    that ends without a single text delta returns the empty text normally;
    no empty-response error is raised.  The first stream has no chunk at
    all, the second a well-formed frame without a text field. *)
Theorem C4_chat_stream_returns_empty :
  (forall JSON_parse : string -> option JsValue,
     sendMessageStream JSON_parse (streaming []) = mkRun [] (Returned "")) /\
  sendMessageStream Json.parse (streaming [Json.ln (Json.json "data: {'done':true}")])
    = mkRun [] (Returned "") /\
  ragQueryStream Json.parse true true (streaming [Json.ln (Json.json "data: {'done':true}")])
    = mkRun [] (Thrown "No response data received from server").
Proof. repeat split; reflexivity. Qed.

(** *** Lines that fail to decode *)

Lemma data_line_not_blank (line : string) :
  startsWith line "data: " = true -> (trim line =? "") = false.
Proof.
  unfold startsWith. intros H. apply String.prefix_correct in H.
  destruct line as [|c r]; [discriminate|].
  cbn [String.length substring] in H. injection H as -> _. reflexivity.
Qed.

(** C7 (as amended): in the document-QA decoder, take a line with the
    event-data prefix whose trimmed payload is not the sentinel and fails
    to decode (JSON.parse throws, or yields null, whose property read
    throws).  When the trimmed payload is not empty, the line appends it to
    the accumulator, raises receivedData, emits the new cumulative text and
    goes on to the next line.  When the trimmed payload is empty, the line
    appends nothing and emits nothing: the decoder goes on to the next line
    as it was. *)
Theorem C7_rag_raw_fallback :
  forall (JSON_parse : string -> option JsValue) (onAssistantId onThreadId : bool)
         (line : string) (d : Decoder),
    startsWith line "data: " = true ->
    trim (slice 6 line) <> "[DONE]" ->
    (JSON_parse (trim (slice 6 line)) = None \/
     JSON_parse (trim (slice 6 line)) = Some JNull) ->
    (trim (slice 6 line) <> "" ->
     ragLine JSON_parse onAssistantId onThreadId line d
       = ({| accumulatedText := accumulatedText d ++ trim (slice 6 line);
             receivedData := true;
             made := (made d ++ [OnChunk (accumulatedText d ++ trim (slice 6 line))])%list |},
          Next))
    /\ (trim (slice 6 line) = "" ->
        ragLine JSON_parse onAssistantId onThreadId line d = (d, Next)).
Proof.
  intros parse a t line d Hp Hnd Hfail.
  unfold ragLine. rewrite (data_line_not_blank line Hp), Hp.
  unfold ragEventLine.
  apply String.eqb_neq in Hnd. rewrite Hnd.
  split.
  - intros Hne. apply String.eqb_neq in Hne.
    assert (Hraw : ragRaw line d = appendText (trim (slice 6 line)) d).
    { unfold ragRaw. now rewrite Hne, Hnd. }
    destruct Hfail as [-> | ->]; rewrite Hraw; reflexivity.
  - intros He.
    assert (Hraw : ragRaw line d = d).
    { unfold ragRaw. now rewrite He. }
    destruct Hfail as [-> | ->]; rewrite Hraw; reflexivity.
Qed.

Lemma C7_rag_raw_fallback_witness :
  ragLine Json.parse true true "data: hello" ragStart
    = ({| accumulatedText := "hello"; receivedData := true; made := [OnChunk "hello"] |},
       Next)
  /\ ragLine Json.parse true true "data: " ragStart = (ragStart, Next).
Proof.
  split.
  - apply (C7_rag_raw_fallback Json.parse true true "data: hello" ragStart).
    + reflexivity.
    + discriminate.
    + left. reflexivity.
    + discriminate.
  - apply (C7_rag_raw_fallback Json.parse true true "data: " ragStart).
    + reflexivity.
    + discriminate.
    + left. reflexivity.
    + reflexivity.
Defined.

(** C7 fails as stated: the payload [hello] is not JSON, and the plain chat
    decoder drops it (nothing appended, nothing emitted); and in the
    document-QA decoder a data line with an empty payload fails to decode
    and emits nothing. *)
Lemma C7_counterexample :
  (Json.parse (slice 6 "data: hello") = None /\
   sendMessageStream Json.parse (streaming [Json.ln "data: hello"])
     = mkRun [] (Returned "")) /\
  (Json.parse (trim (slice 6 "data: ")) = None /\
   ragLine Json.parse true true "data: " ragStart = (ragStart, Next)).
Proof. repeat split; reflexivity. Qed.

(** *** The terminal sentinel *)

Section Sentinel.
Variable JSON_parse : string -> option JsValue.
Variables onAssistantId onThreadId : bool.

Lemma sentinel_breaks (line : string) (d : Decoder) :
  is_sentinel line ->
  ragLine JSON_parse onAssistantId onThreadId line d = (d, Break).
Proof.
  intros [Hp Hs]. unfold ragLine, ragEventLine.
  rewrite (data_line_not_blank line Hp), Hp, Hs. reflexivity.
Qed.

(** X2: within one chunk nothing after a sentinel line is looked at: the
    lines after it, whatever they are, leave the decoder as the lines
    before it left it. *)
Lemma sentinel_ends_chunk (before after : list string) (line : string) (d : Decoder) :
  is_sentinel line ->
  ragLines JSON_parse onAssistantId onThreadId (before ++ line :: after) d
    = ragLines JSON_parse onAssistantId onThreadId before d.
Proof.
  intros Hs. revert d. induction before as [|l rest IH]; intros d; simpl.
  - now rewrite sentinel_breaks.
  - destruct (ragLine JSON_parse onAssistantId onThreadId l d) as [d' [|]];
      [apply IH | reflexivity].
Qed.

End Sentinel.

(** C8 (evaluated where the code departs from it): the sentinel ends only
    the chunk it arrives in.  Here it is the whole first chunk, and the
    frame of the second chunk is still decoded, appended and emitted. *)
Theorem C8_later_chunk_after_sentinel :
  ragQueryStream Json.parse true true
    (streaming [Json.ln "data: [DONE]"; Json.ln (Json.json "data: {'text':'late'}")])
    = mkRun [OnChunk "late"] (Returned "late") /\
  ragQueryStream Json.parse true true
    (streaming [Json.ln (Json.json "data: {'text':'The answer.'}") ++ Json.ln "data: [DONE]";
                Json.ln "data: trailing"])
    = mkRun [OnChunk "The answer."; OnChunk "The answer.trailing"]
        (Returned "The answer.trailing").
Proof. split; reflexivity. Qed.

(** *** The in-place update of the store *)

Import Index.

Lemma updateMessages_no_assistant (ai : string) (msgs : list Message) :
  existsb is_assistant msgs = false -> updateMessages ai msgs = msgs.
Proof.
  induction msgs as [|m rest IH]; simpl; [reflexivity|].
  intros H. apply orb_false_iff in H as [Hm Hrest].
  rewrite Hm, (IH Hrest). reflexivity.
Qed.

Lemma updateMessages_trailing (ai : string) (msgs pre : list Message) (msg : Message)
    (post : list Message) :
  trailing_assistant msgs pre msg post ->
  updateMessages ai msgs = (pre ++ updated ai msg :: post)%list.
Proof.
  intros [-> [Hm Hpost]]. induction pre as [|x pre IH]; simpl.
  - rewrite Hm, Hpost, (updateMessages_no_assistant ai post Hpost).
    now destruct post.
  - rewrite IH. replace (existsb is_assistant (pre ++ msg :: post)) with true.
    + destruct (pre ++ msg :: post)%list eqn:E; [now destruct pre|].
      now rewrite andb_false_r.
    + symmetry. rewrite existsb_app. simpl. rewrite Hm. apply orb_true_r.
Qed.

Lemma handleMessageSent_update_nth (seen : option string) (now : Z) (u ai : string)
    (s : State) (i : nat) (conv : Conversation) :
  nth_error (conversations s) i = Some conv ->
  nth_error (conversations (handleMessageSent seen now u ai true s)) i
    = Some (if isTargetConversation seen (conversations s) conv
            then updateConversation ai conv else conv).
Proof. intros H. simpl. now rewrite nth_error_map, H. Qed.

Lemma isErrorResponse_phrase (ai : string) :
  isErrorResponse ai = true <-> has_error_phrase ai.
Proof.
  unfold isErrorResponse, has_error_phrase.
  rewrite !orb_true_iff. tauto.
Qed.

Lemma onError_is_flagged (u : string) (doc : option File) (tool : ChatInput.Tool) :
  exists text,
    updates (ChatInput.onError u doc tool) = [text] /\ isErrorResponse text = true.
Proof.
  eexists. split; [reflexivity|].
  destruct doc, tool; reflexivity.
Qed.

(** C10: an in-place update (a streaming snapshot or a terminal one) rewrites
    the last assistant message of the target conversation, and the rewritten
    message is marked isError=true with errorType 'server' exactly when the
    lowercased content contains 'sorry, i encountered an error', 'failed to'
    or 'error occurred'; otherwise isError=false and errorType is absent.
    Whatever made the dispatcher fail, the message it writes is flagged. *)
Theorem C10_error_flag_iff_phrase :
  forall (seen : option string) (now : Z) (u ai : string) (s : State)
         (i : nat) (conv : Conversation) (pre : list Message) (msg : Message)
         (post : list Message),
    nth_error (conversations s) i = Some conv ->
    isTargetConversation seen (conversations s) conv = true ->
    trailing_assistant (messages conv) pre msg post ->
    exists conv' msg',
      nth_error (conversations (handleMessageSent seen now u ai true s)) i = Some conv' /\
      messages conv' = (pre ++ msg' :: post)%list /\
      content msg' = ai /\
      ((isError msg' = Some true /\ errorType msg' = Some server) <-> has_error_phrase ai) /\
      ((isError msg' = Some false /\ errorType msg' = None) <-> ~ has_error_phrase ai) /\
      (forall (doc : option File) (tool : ChatInput.Tool),
         exists text, updates (ChatInput.onError u doc tool) = [text] /\
                      has_error_phrase text).
Proof.
  intros seen now u ai s i conv pre msg post Hnth Htarget Htrail.
  exists (updateConversation ai conv), (updated ai msg).
  split; [now rewrite (handleMessageSent_update_nth _ _ _ _ _ _ _ Hnth), Htarget|].
  split; [exact (updateMessages_trailing ai _ _ _ _ Htrail)|].
  split; [reflexivity|].
  rewrite <- isErrorResponse_phrase. simpl.
  split; [|split].
  - destruct (isErrorResponse ai); intuition congruence.
  - destruct (isErrorResponse ai); intuition congruence.
  - intros doc tool. destruct (onError_is_flagged u doc tool) as [text [E F]].
    exists text. split; [exact E | now apply isErrorResponse_phrase].
Qed.

(** *** The dispatcher *)

Import ChatInput Examples.

Lemma requests_app (a b : list Effect) :
  requests (a ++ b) = (requests a ++ requests b)%list.
Proof.
  induction a as [|e a IH]; simpl; [reflexivity|].
  destruct e; simpl; now rewrite IH.
Qed.

Lemma updates_app (a b : list Effect) :
  updates (a ++ b) = (updates a ++ updates b)%list.
Proof.
  induction a as [|e a IH]; simpl; [reflexivity|].
  destruct e as [| | | | u ai [|] | | |]; simpl; now rewrite IH.
Qed.

Lemma requests_callbacks (u : string) (cs : list Callback) :
  requests (map (onCallback u) cs) = [].
Proof. induction cs as [|c cs IH]; simpl; [reflexivity | now destruct c]. Qed.

Lemma updates_callbacks (u : string) (cs : list Callback) :
  updates (map (onCallback u) cs) = snapshots cs.
Proof.
  induction cs as [|c cs IH]; simpl; [reflexivity|].
  destruct c; simpl; now rewrite IH.
Qed.

Lemma requests_onError (u : string) (doc : option File) (tool : Tool) :
  requests (onError u doc tool) = [].
Proof. reflexivity. Qed.

Section Dispatcher.
Variable JSON_parse : string -> option JsValue.
Variable SearchData : Type.
Variable formatSearchResults : SearchData -> option string.
Variable remote : Remote SearchData.

Lemma accepted_guard (st : ChatInput.State) :
  accepted st -> (trim (message st) =? "") || isStreaming st = false.
Proof. intros [Hm Hs]. apply String.eqb_neq in Hm. now rewrite Hm, Hs. Qed.

(** A submission that is not accepted does nothing at all. *)
Lemma rejected_submission (conversationDocument : option File) (st : ChatInput.State) :
  (trim (message st) =? "") || isStreaming st = true ->
  handleSubmit JSON_parse SearchData formatSearchResults remote conversationDocument st = [].
Proof. intros H. unfold handleSubmit. now rewrite H. Qed.

Lemma chatReply_requests (u m : string) (doc : option File) (tool : Tool) :
  requests (chatReply SearchData remote u m doc tool) = [SendMessage m].
Proof.
  unfold chatReply. destruct (sendMessage SearchData remote m) as [| |r]; try reflexivity.
  now destruct (r =? "").
Qed.

Lemma handleSubmit_requests (conversationDocument : option File) (st : ChatInput.State) :
  accepted st ->
  requests (handleSubmit JSON_parse SearchData formatSearchResults remote
              conversationDocument st)
    = [dispatched conversationDocument st].
Proof.
  intros Hacc. unfold handleSubmit, dispatched.
  rewrite (accepted_guard st Hacc).
  destruct (attachedFile st) as [f|] eqn:Ha; simpl.
  - rewrite requests_app, requests_callbacks.
    now destruct (completion _).
  - destruct conversationDocument as [f|]; simpl.
    + rewrite requests_app, requests_callbacks. now destruct (completion _).
    + destruct (selectedTool st); simpl.
      * apply chatReply_requests.
      * destruct (performDeepSearch SearchData remote (message st)) as [| |d];
          try reflexivity.
        now destruct (formatSearchResults d).
      * apply chatReply_requests.
Qed.

(** X25: an accepted submission first clears the input, then sends the
    pair of messages to the store, and only then makes its one request:
    the append precedes the network operation in every mode. *)
Lemma handleSubmit_appends_first (conversationDocument : option File) (st : ChatInput.State) :
  accepted st ->
  exists rest,
    handleSubmit JSON_parse SearchData formatSearchResults remote conversationDocument st
      = SetMessage "" :: MessageSent (message st) "Friday is thinking..." false :: rest
    /\ requests rest = [dispatched conversationDocument st].
Proof.
  intros Hacc. pose proof (handleSubmit_requests conversationDocument st Hacc) as Hr.
  unfold handleSubmit in *. rewrite (accepted_guard st Hacc) in *.
  eexists. split; [reflexivity | exact Hr].
Qed.

Lemma handleSubmit_updates (conversationDocument : option File) (st : ChatInput.State)
    (file : File) :
  accepted st ->
  documentToUse (attachedFile st) conversationDocument = Some file ->
  updates (handleSubmit JSON_parse SearchData formatSearchResults remote
             conversationDocument st)
    = (snapshots (calls (ragQueryStream JSON_parse true true
                           (ragStream SearchData remote (message st) file)))
       ++ match completion (ragQueryStream JSON_parse true true
                              (ragStream SearchData remote (message st) file)) with
          | Returned _ => []
          | Thrown _ => updates (onError (message st) (Some file) (selectedTool st))
          end)%list.
Proof.
  intros Hacc Hdoc. unfold handleSubmit.
  rewrite (accepted_guard st Hacc), Hdoc. simpl.
  rewrite updates_app, updates_callbacks. f_equal.
  destruct (completion _); [now destruct (attachedFile st) | reflexivity].
Qed.

End Dispatcher.

(** C5: an accepted submission makes exactly one request.  With a document
    attached to the submission or bound to the conversation it is the
    document-QA stream, whatever the selected mode; without one it is the
    search in web-search mode, the chat call on the input wrapped in the
    markdown instruction in markdown mode, and the chat call on the input
    itself otherwise. *)
Theorem C5_one_request_by_precedence :
  forall (JSON_parse : string -> option JsValue) (SearchData : Type)
         (formatSearchResults : SearchData -> option string)
         (remote : Remote SearchData) (conversationDocument : option File)
         (st : ChatInput.State),
    accepted st ->
    requests (handleSubmit JSON_parse SearchData formatSearchResults remote
                conversationDocument st)
      = [dispatched conversationDocument st]
    /\ (forall file, documentToUse (attachedFile st) conversationDocument = Some file ->
          dispatched conversationDocument st = RagQueryStream (message st) file).
Proof.
  intros parse SD fmt remote doc st Hacc. split.
  - now apply handleSubmit_requests.
  - intros file. unfold dispatched, documentToUse.
    destruct (attachedFile st); [now intros [= ->]|].
    destruct doc; [now intros [= ->] | discriminate].
Qed.

Lemma C5_one_request_by_precedence_witness :
  requests (handleSubmit Json.parse unit noFormat (service Empty) None question)
    = [dispatched None question]
  /\ (forall file, documentToUse (attachedFile question) None = Some file ->
        dispatched None question = RagQueryStream (message question) file).
Proof.
  apply (C5_one_request_by_precedence Json.parse unit noFormat (service Empty) None question).
  split; [discriminate | reflexivity].
Defined.

(** *** Snapshots written into the store *)

Lemma submitted_question :
  submitted "What is the answer?"
    = {| conversations := [submittedConversation "What is the answer?"];
         currentConversationId := Some "1000"; showWelcome := false;
         messageCount := 2; isLoading := false |}.
Proof. reflexivity. Qed.

(** C2 (as amended): in a document-QA submission the in-place updates sent
    to the store are, in order, one per decoded snapshot (followed by the
    error text when the stream fails, and by nothing when it ends well); and
    each such update, on a store whose target conversation has a last
    assistant message, replaces that message's content by the snapshot and
    sets its isThinking flag to false, leaving the messages around it, its
    role, id and timestamp as they were. *)
Theorem C2_one_update_per_snapshot :
  forall (JSON_parse : string -> option JsValue) (SearchData : Type)
         (formatSearchResults : SearchData -> option string)
         (remote : Remote SearchData) (conversationDocument : option File)
         (st : ChatInput.State) (file : File)
         (seen : option string) (now : Z) (s : Index.State) (i : nat)
         (conv : Conversation) (pre : list Message) (msg : Message)
         (post : list Message) (snapshot : string),
    accepted st ->
    documentToUse (attachedFile st) conversationDocument = Some file ->
    nth_error (conversations s) i = Some conv ->
    isTargetConversation seen (conversations s) conv = true ->
    trailing_assistant (messages conv) pre msg post ->
    updates (handleSubmit JSON_parse SearchData formatSearchResults remote
               conversationDocument st)
      = (snapshots (calls (ragQueryStream JSON_parse true true
                             (ragStream SearchData remote (message st) file)))
         ++ match completion (ragQueryStream JSON_parse true true
                                (ragStream SearchData remote (message st) file)) with
            | Returned _ => []
            | Thrown _ => updates (onError (message st) (Some file) (selectedTool st))
            end)%list
    /\ exists conv' msg',
         nth_error (conversations
                      (perform seen now s (MessageSent (message st) snapshot true))) i
           = Some conv' /\
         messages conv' = (pre ++ msg' :: post)%list /\
         content msg' = snapshot /\
         isThinking msg' = Some false /\
         role msg' = role msg /\ id msg' = id msg /\ timestamp msg' = timestamp msg.
Proof.
  intros parse SD fmt remote doc st file seen now s i conv pre msg post snapshot
         Hacc Hdoc Hnth Htarget Htrail.
  split; [now apply handleSubmit_updates|].
  exists (updateConversation snapshot conv), (updated snapshot msg).
  split.
  - unfold perform. now rewrite (handleMessageSent_update_nth _ _ _ _ _ _ _ Hnth), Htarget.
  - split; [exact (updateMessages_trailing snapshot _ _ _ _ Htrail)|].
    repeat split; reflexivity.
Qed.

Lemma C2_one_update_per_snapshot_witness :
  updates (handleSubmit Json.parse unit noFormat (service Empty) None question)
    = ["The "; "The answer is 42."]
  /\ exists conv' msg',
       nth_error (conversations
                    (perform None 1000 (submitted "What is the answer?")
                       (MessageSent "What is the answer?" "The " true))) 0
         = Some conv' /\
       messages conv' = [userTurn "What is the answer?"; msg'] /\
       content msg' = "The " /\
       isThinking msg' = Some false /\
       role msg' = assistant /\ id msg' = "assistant-1000" /\ timestamp msg' = 1001%Z.
Proof.
  apply (C2_one_update_per_snapshot Json.parse unit noFormat (service Empty) None
           question paper None 1000 (submitted "What is the answer?") 0
           (submittedConversation "What is the answer?")
           [userTurn "What is the answer?"] placeholder [] "The ").
  - split; [discriminate | reflexivity].
  - reflexivity.
  - reflexivity.
  - reflexivity.
  - repeat split; reflexivity.
Defined.

(** C2 fails as stated.  In the document-QA scenario the store holds the
    placeholder with isThinking=false after the first of the two snapshots
    (and already before it); and a placeholder that is thinking, as the one
    the retry path appends, loses the flag at the first snapshot written
    over it. *)
Lemma C2_counterexample :
  updates (handleSubmit Json.parse unit noFormat (service Empty) None question)
    = ["The "; "The answer is 42."] /\
  map thinkingFlags
      (stores None 1000 emptyStore
         (firstn 5 (handleSubmit Json.parse unit noFormat (service Empty) None question)))
    = [ []; [[None; Some false]]; [[None; Some false]]; [[None; Some false]];
        [[None; Some false]] ] /\
  thinkingFlags retried = [[None; Some false; None; Some true]] /\
  thinkingFlags (handleMessageSent (Some "1000") 2000 "hi" "The " true retried)
    = [[None; Some false; None; Some false]].
Proof. repeat split; reflexivity. Qed.

(** *** The placeholder of a submission *)

(** C3 (evaluated where the code departs from it): the pair appended for a
    submission from the chat input carries the text 'Friday is thinking...',
    which is not the text the store compares with, so the placeholder is
    stored with isThinking=false; the text the retry path passes gives
    isThinking=true.  The pair is appended in one call, before the request. *)
Theorem C3_placeholder_is_not_thinking :
  (forall (now : Z) (userMessage : string),
     map isThinking (newMessages now userMessage "Friday is thinking...")
       = [None; Some false]) /\
  (forall (now : Z) (userMessage : string),
     map isThinking (newMessages now userMessage "Unico AI is thinking...")
       = [None; Some true]) /\
  handleSubmit Json.parse unit noFormat (service (Data "Hello!")) None hello
    = [ SetMessage ""; MessageSent "hi" "Friday is thinking..." false;
        Call (SendMessage "hi"); MessageSent "hi" "Hello!" true ] /\
  submitted "hi"
    = {| conversations := [submittedConversation "hi"];
         currentConversationId := Some "1000"; showWelcome := false;
         messageCount := 2; isLoading := false |} /\
  thinkingFlags (submitted "hi") = [[None; Some false]].
Proof. repeat split; reflexivity. Qed.

(** *** Retry *)

(** A retry leaves the store as it is or makes the one call that appends a
    pair of messages; it never reaches the dispatcher. *)
Lemma handleRetryMessage_only_appends (now : Z) (messageId : string) (s : Index.State) :
  handleRetryMessage now messageId s = s \/
  exists userMessage,
    handleRetryMessage now messageId s
      = handleMessageSent (currentConversationId s) now userMessage
          "Unico AI is thinking..." false s.
Proof.
  unfold handleRetryMessage.
  destruct (getCurrentConversation s) as [conv|]; [|now left].
  destruct (findIndex messageId [] (messages conv)) as [[before m]|]; [|now left].
  destruct (is_assistant m); [|now left].
  destruct (last (map Some before) None) as [u|]; [|now left].
  destruct (is_user u); [right; now exists (content u) | now left].
Qed.

(** Appending to the selected conversation keeps every message it had. *)
Lemma append_keeps_messages (seen : option string) (now : Z) (u ai : string)
    (s : Index.State) (i : nat) (conv : Conversation) :
  selected seen = true ->
  nth_error (conversations s) i = Some conv ->
  exists conv',
    nth_error (conversations (handleMessageSent seen now u ai false s)) i = Some conv' /\
    conv_id conv' = conv_id conv /\
    (messages conv' = messages conv \/
     messages conv' = (messages conv ++ newMessages now u ai)%list).
Proof.
  intros Hsel Hnth. unfold handleMessageSent. rewrite Hsel. simpl.
  rewrite nth_error_map, Hnth. simpl.
  destruct (is_current conv seen); eexists; (split; [reflexivity|]); simpl; auto.
Qed.

(** C6 (evaluated where the code departs from it): retrying the failed
    message of the example appends a fresh pair after the two messages of
    the conversation, which stay as they were, and that is all: the retry is
    the store's append call and nothing else, no request is made for the
    user message, and the new placeholder stays pending. *)
Theorem C6_retry_only_appends :
  conversations failed
    = [ {| conv_id := "1000"; title := "hi";
           messages :=
             [ userTurn "hi";
               {| role := assistant;
                  content := "Sorry, I encountered an error while processing your message. Please try again.";
                  isNew := Some false; isThinking := Some false;
                  isError := Some true; errorType := Some server;
                  timestamp := 1001; id := "assistant-1000" |} ];
           document := None |} ] /\
  retried = handleMessageSent (Some "1000") 2000 "hi" "Unico AI is thinking..." false failed /\
  map messages (conversations retried)
    = map (fun conv => (messages conv ++ newMessages 2000 "hi" "Unico AI is thinking...")%list)
        (conversations failed) /\
  thinkingFlags retried = [[None; Some false; None; Some true]] /\
  isLoading retried = true.
Proof. repeat split; reflexivity. Qed.

(** *** Persistence *)

Import Storage.

Section SaveEffect.
Variable setItem : Item -> bool.

(** The first write holds at most fifty conversations, the first fifty,
    each without its document; a second write is made only when the first
    one faults and holds at most twenty-five; no fault leaves the effect;
    before the initial load nothing is written. *)
Lemma saveEffect_attempts (isLoaded : bool) (convs : list Conversation)
    (before : option Item) :
  let saved := saveEffect setItem isLoaded convs before in
  crashed saved = false /\
  (isLoaded = false -> attempts saved = [] /\ stored saved = before) /\
  (isLoaded = true ->
     exists first, hd_error (attempts saved) = Some first /\
       first = map withoutDocument (firstn MAX_CONVERSATIONS convs) /\
       List.length first <= 50 /\
       Forall (fun conv => document conv = None) first /\
       (setItem first = true -> attempts saved = [first] /\ stored saved = Some first) /\
       (setItem first = false ->
          exists second, attempts saved = [first; second] /\
            second = firstn (MAX_CONVERSATIONS / 2) convs /\
            List.length second <= 25 /\
            stored saved = if setItem second then Some second else before)).
Proof.
  unfold saveEffect. destruct isLoaded; simpl negb; cbv iota.
  - set (first := map withoutDocument (firstn MAX_CONVERSATIONS convs)).
    assert (Hlen : List.length first <= 50).
    { subst first. rewrite length_map. apply firstn_le_length. }
    assert (Hdoc : Forall (fun conv => document conv = None) first).
    { subst first. apply Forall_forall. intros c Hc.
      apply in_map_iff in Hc as [c0 [<- _]]. reflexivity. }
    destruct (setItem first) eqn:H1.
    + split; [reflexivity|]. split; [discriminate|]. intros _.
      exists first. split; [reflexivity|]. split; [reflexivity|].
      split; [exact Hlen|]. split; [exact Hdoc|].
      split; [intros _; now split | congruence].
    + set (second := firstn (MAX_CONVERSATIONS / 2) convs).
      assert (Hlen2 : List.length second <= 25) by apply firstn_le_length.
      assert (Hgoal : forall saved,
                 saved = (if setItem second
                          then mkSaved [first; second] (Some second) false
                          else mkSaved [first; second] before false) ->
                 crashed saved = false /\
                 attempts saved = [first; second] /\
                 stored saved = if setItem second then Some second else before).
      { intros saved ->. now destruct (setItem second). }
      destruct (Hgoal _ eq_refl) as [Hc [Ha Hs]].
      split; [exact Hc|]. split; [discriminate|]. intros _.
      exists first. split; [now rewrite Ha|]. split; [reflexivity|].
      split; [exact Hlen|]. split; [exact Hdoc|].
      split; [congruence|]. intros _.
      exists second. split; [exact Ha|]. split; [reflexivity|].
      split; [exact Hlen2 | exact Hs].
  - split; [reflexivity|]. split; [now split | discriminate].
Qed.

End SaveEffect.

(** C9 (evaluated where the code departs from it): with thirty
    conversations that each carry a document and a storage with room for
    twenty-five, the first write (thirty conversations, documents removed)
    faults and the reduced write stores the first twenty-five as they are:
    every one of them still has its document. *)
Theorem C9_reduced_write_keeps_documents :
  attempts (saveEffect room25 true thirty None)
    = [map withoutDocument thirty; firstn 25 thirty] /\
  stored (saveEffect room25 true thirty None) = Some (firstn 25 thirty) /\
  forallb (fun conv => match document conv with Some _ => true | None => false end)
    (firstn 25 thirty) = true /\
  List.length (firstn 25 thirty) = 25 /\
  crashed (saveEffect room25 true thirty None) = false.
Proof. repeat split; reflexivity. Qed.

(** *** Error phrases in answers *)

Lemma C10_error_flag_iff_phrase_witness :
  exists conv' msg',
    nth_error (conversations
                 (handleMessageSent None 1000 "hi" "The upload failed to finish." true
                    (submitted "hi"))) 0 = Some conv' /\
    messages conv' = [userTurn "hi"; msg'] /\
    content msg' = "The upload failed to finish." /\
    ((isError msg' = Some true /\ errorType msg' = Some server)
       <-> has_error_phrase "The upload failed to finish.") /\
    ((isError msg' = Some false /\ errorType msg' = None)
       <-> ~ has_error_phrase "The upload failed to finish.") /\
    (forall (doc : option File) (tool : Tool),
       exists text, updates (onError "hi" doc tool) = [text] /\ has_error_phrase text).
Proof.
  apply (C10_error_flag_iff_phrase None 1000 "hi" "The upload failed to finish."
           (submitted "hi") 0 (submittedConversation "hi") [userTurn "hi"] placeholder []).
  - reflexivity.
  - reflexivity.
  - repeat split; reflexivity.
Defined.

(** A successful answer that happens to contain one of the phrases is stored
    as a server error; a request that was rejected before reaching any server
    is stored as a server error too. *)
Example answer_with_phrase_is_flagged :
  has_error_phrase "The upload failed to finish." /\
  map (fun conv => map (fun m => (isError m, errorType m)) (messages conv))
      (conversations
         (runEffects None 1000 emptyStore
            (handleSubmit Json.parse unit noFormat
               (service (Data "The upload failed to finish.")) None hello)))
    = [[(None, None); (Some true, Some server)]] /\
  map (fun conv => map (fun m => (isError m, errorType m)) (messages conv))
      (conversations
         (runEffects None 1000 emptyStore
            (handleSubmit Json.parse unit noFormat (service Failed) None hello)))
    = [[(None, None); (Some true, Some server)]].
Proof. split; [right; left; reflexivity | split; reflexivity]. Qed.

(* ================================================================= *)
(** ** Further properties of the streaming operations *)

Lemma last_cons_shift {A : Type} (x : A) (l : list A) (d : A) :
  last (x :: l) d = last l x.
Proof.
  revert x d. induction l as [|y l IH]; intros x d; [reflexivity|].
  change (last (x :: y :: l) d) with (last (y :: l) d). now rewrite !IH.
Qed.

Lemma grows_last (a z : string) (l : list string) : grows a l z -> z = last l a.
Proof.
  induction 1 as [a|a d l z _ IH]; [reflexivity|].
  now rewrite last_cons_shift.
Qed.

(** X1: a streaming operation that reads its stream to the end returns the
    last snapshot it handed to the update callback: [sendMessageStream]
    returns it (the empty text when there was none), and [ragQueryStream]
    returns it when there was one and throws the empty-response error when
    there was none. *)
Theorem X1_stream_returns_last_snapshot :
  forall (JSON_parse : string -> option JsValue) (onAssistantId onThreadId : bool)
         (chunks : list string),
    completion (sendMessageStream JSON_parse (streaming chunks))
      = Returned (last (snapshots (calls (sendMessageStream JSON_parse (streaming chunks)))) "")
    /\ completion (ragQueryStream JSON_parse onAssistantId onThreadId (streaming chunks))
       = match snapshots (calls (ragQueryStream JSON_parse onAssistantId onThreadId
                                   (streaming chunks))) with
         | [] => Thrown "No response data received from server"
         | _ :: _ =>
             Returned (last (snapshots (calls (ragQueryStream JSON_parse onAssistantId
                                                 onThreadId (streaming chunks)))) "")
         end.
Proof.
  intros parse a t chunks. split.
  - simpl. destruct (chatLoop_step parse chunks ("", [])) as [new [E G]].
    simpl in E, G. rewrite E. now rewrite (grows_last _ _ _ G).
  - rewrite ragQueryStream_calls. simpl.
    destruct (ragLoop_step parse a t chunks ragStart) as [new [E [G R]]].
    simpl in E, G, R. rewrite R, E.
    destruct (snapshots new) as [|x l] eqn:Hs; simpl; [reflexivity|].
    now rewrite (grows_last _ _ _ G).
Qed.

Lemma X2_sentinel_ends_chunk_witness :
  ragLines Json.parse true true
    ([Json.json "data: {'text':'The answer.'}"] ++ "data: [DONE]" :: ["data: more"]) ragStart
    = ragLines Json.parse true true [Json.json "data: {'text':'The answer.'}"] ragStart.
Proof.
  apply (sentinel_ends_chunk Json.parse true true
           [Json.json "data: {'text':'The answer.'}"] ["data: more"] "data: [DONE]" ragStart).
  split; reflexivity.
Defined.

(** *** Blank lines and chunk boundaries *)

Lemma split_not_nil (s : string) : split s <> [].
Proof.
  destruct s as [|c r]; simpl; [discriminate|].
  destruct (Ascii.eqb c newline); [discriminate|]. now destruct (split r).
Qed.

(** Joining two texts with a line feed joins their lines. *)
Lemma split_join (a b : string) :
  split (a ++ String newline b) = (split a ++ split b)%list.
Proof.
  induction a as [|c r IH]; simpl.
  - reflexivity.
  - rewrite IH. destruct (Ascii.eqb c newline); [reflexivity|].
    destruct (split r) as [|h t] eqn:E; [now apply split_not_nil in E|]. reflexivity.
Qed.

Section Lines.
Variable JSON_parse : string -> option JsValue.
Variables onAssistantId onThreadId : bool.

Lemma blank_is_not_data (line : string) :
  trim line = "" -> startsWith line "data: " = false.
Proof.
  intros Hb. destruct (startsWith line "data: ") eqn:Hp; [|reflexivity].
  apply data_line_not_blank in Hp. rewrite Hb in Hp. discriminate.
Qed.

Lemma chatLine_blank (line : string) (st : string * list Callback) :
  trim line = "" -> chatLine JSON_parse line st = st.
Proof. intros Hb. unfold chatLine. now rewrite (blank_is_not_data line Hb). Qed.

Lemma ragLine_blank (line : string) (d : Decoder) :
  trim line = "" -> ragLine JSON_parse onAssistantId onThreadId line d = (d, Next).
Proof. intros Hb. unfold ragLine. now rewrite Hb. Qed.

(** X3: a line of white space only is invisible to both decoders: a chunk
    decodes the same with the line and without it. *)
Theorem X3_blank_lines_are_skipped :
  forall (before after : list string) (line : string)
         (st : string * list Callback) (d : Decoder),
    trim line = "" ->
    fold_left (fun st l => chatLine JSON_parse l st) (before ++ line :: after) st
      = fold_left (fun st l => chatLine JSON_parse l st) (before ++ after) st
    /\ ragLines JSON_parse onAssistantId onThreadId (before ++ line :: after) d
       = ragLines JSON_parse onAssistantId onThreadId (before ++ after) d.
Proof.
  intros before after line st d Hb. split.
  - rewrite !fold_left_app. simpl. now rewrite chatLine_blank.
  - revert d. induction before as [|l rest IH]; intros d; simpl.
    + now rewrite ragLine_blank.
    + destruct (ragLine JSON_parse onAssistantId onThreadId l d) as [d' [|]];
        [apply IH | reflexivity].
Qed.

(** X4: the plain chat decoder treats the boundary between two chunks
    exactly as a line feed: no part of a line is carried over from one chunk
    to the next. *)
Theorem X4_chat_chunk_boundary_is_line_feed :
  forall (c1 c2 : string) (rest : list string) (st : string * list Callback),
    chatLoop JSON_parse (c1 :: c2 :: rest) st
      = chatLoop JSON_parse ((c1 ++ String newline c2) :: rest) st.
Proof.
  intros c1 c2 rest st. unfold chatLoop. simpl. f_equal.
  unfold chatChunk. now rewrite split_join, fold_left_app.
Qed.

Lemma ragLine_next (line : string) (d : Decoder) :
  ~ is_sentinel line ->
  snd (ragLine JSON_parse onAssistantId onThreadId line d) = Next.
Proof.
  intros Hs. unfold ragLine. destruct (trim line =? ""); [reflexivity|].
  destruct (startsWith line "data: ") eqn:Hp; [|reflexivity].
  unfold ragEventLine. destruct (trim (slice 6 line) =? "[DONE]") eqn:Hd.
  - apply String.eqb_eq in Hd. elim Hs. now split.
  - destruct (JSON_parse (trim (slice 6 line))) as [[]|]; reflexivity.
Qed.

Lemma ragLines_app (l1 l2 : list string) (d : Decoder) :
  Forall (fun line => ~ is_sentinel line) l1 ->
  ragLines JSON_parse onAssistantId onThreadId (l1 ++ l2) d
    = ragLines JSON_parse onAssistantId onThreadId l2
        (ragLines JSON_parse onAssistantId onThreadId l1 d).
Proof.
  intros H. revert d. induction H as [|l rest Hl _ IH]; intros d; simpl; [reflexivity|].
  pose proof (ragLine_next l d Hl) as Hn.
  destruct (ragLine JSON_parse onAssistantId onThreadId l d) as [d' f].
  simpl in Hn. subst f. apply IH.
Qed.

(** X5: so does the document-QA decoder, as long as the first of the two
    chunks holds no sentinel line. *)
Theorem X5_rag_chunk_boundary_is_line_feed :
  forall (c1 c2 : string) (rest : list string) (d : Decoder),
    Forall (fun line => ~ is_sentinel line) (split c1) ->
    ragLoop JSON_parse onAssistantId onThreadId (c1 :: c2 :: rest) d
      = ragLoop JSON_parse onAssistantId onThreadId ((c1 ++ String newline c2) :: rest) d.
Proof.
  intros c1 c2 rest d H. unfold ragLoop. simpl. f_equal.
  unfold ragChunk. now rewrite split_join, ragLines_app.
Qed.

End Lines.

Lemma X3_blank_lines_are_skipped_witness :
  fold_left (fun st l => chatLine Json.parse l st)
      ([Json.json "data: {'text':'a'}"] ++ "   " :: [Json.json "data: {'text':'b'}"])
      ("", [])
    = fold_left (fun st l => chatLine Json.parse l st)
        ([Json.json "data: {'text':'a'}"] ++ [Json.json "data: {'text':'b'}"]) ("", [])
  /\ ragLines Json.parse true true
       ([Json.json "data: {'text':'a'}"] ++ "   " :: [Json.json "data: {'text':'b'}"])
       ragStart
     = ragLines Json.parse true true
         ([Json.json "data: {'text':'a'}"] ++ [Json.json "data: {'text':'b'}"]) ragStart.
Proof.
  apply (X3_blank_lines_are_skipped Json.parse true true
           [Json.json "data: {'text':'a'}"] [Json.json "data: {'text':'b'}"] "   "
           ("", []) ragStart).
  reflexivity.
Defined.

Lemma X5_rag_chunk_boundary_is_line_feed_witness :
  ragLoop Json.parse true true
      [Json.json "data: {'text':'The "; Json.json "answer'}"; "data: [DONE]"] ragStart
    = ragLoop Json.parse true true
        [Json.json "data: {'text':'The " ++ String newline (Json.json "answer'}");
         "data: [DONE]"] ragStart.
Proof.
  apply (X5_rag_chunk_boundary_is_line_feed Json.parse true true
           (Json.json "data: {'text':'The ") (Json.json "answer'}") ["data: [DONE]"] ragStart).
  repeat constructor. intros [_ H]. discriminate H.
Defined.

(* ================================================================= *)
(** ** Further properties of the conversation store *)

Lemma same_turn_refl (m : Message) : same_turn m m.
Proof. repeat split; reflexivity. Qed.

Lemma same_turn_updated (ai : string) (m : Message) :
  is_assistant m = true -> same_turn m (updated ai m).
Proof.
  intros Ha. repeat split. intros Hu. unfold is_assistant, is_user in *.
  destruct (role m); discriminate.
Qed.

Lemma updateMessages_turns (ai : string) (msgs : list Message) :
  Forall2 same_turn msgs (updateMessages ai msgs).
Proof.
  induction msgs as [|m rest IH]; simpl; constructor; [|exact IH].
  destruct (is_assistant m) eqn:Ha; simpl; [|apply same_turn_refl].
  destruct (_ || _); [now apply same_turn_updated | apply same_turn_refl].
Qed.

Lemma Forall2_refl_turns (msgs : list Message) : Forall2 same_turn msgs msgs.
Proof. induction msgs; constructor; [apply same_turn_refl | assumption]. Qed.

Lemma evolves_refl (c : Conversation) : evolves c c.
Proof.
  repeat split. exists (messages c), []. split; [now rewrite app_nil_r|].
  apply Forall2_refl_turns.
Qed.

Lemma evolves_update (ai : string) (c : Conversation) : evolves c (updateConversation ai c).
Proof.
  repeat split. exists (updateMessages ai (messages c)), [].
  split; [simpl; now rewrite app_nil_r | apply updateMessages_turns].
Qed.

Lemma evolves_append (new : list Message) (c : Conversation) :
  evolves c (appendMessages new c).
Proof.
  repeat split. exists (messages c), new. split; [reflexivity | apply Forall2_refl_turns].
Qed.

Lemma Forall2_map_evolves (f : Conversation -> Conversation) (l : list Conversation) :
  (forall c, evolves c (f c)) -> Forall2 evolves l (map f l).
Proof. intros Hf. induction l; simpl; constructor; auto. Qed.

(** X6: whatever [handleMessageSent] is called with, the history is kept:
    the conversations of the store are all still there, in order, behind at
    most one new conversation, each with its id, title and document, and
    each of its messages is still in place with its role, id and timestamp;
    user messages are not touched at all, and new messages only come after
    the old ones. *)
Theorem X6_handleMessageSent_keeps_history :
  forall (seen : option string) (now : Z) (userMessage aiResponse : string)
         (isUpdate : bool) (s : Index.State),
    exists fresh kept,
      conversations (handleMessageSent seen now userMessage aiResponse isUpdate s)
        = (fresh ++ kept)%list /\
      List.length fresh <= 1 /\
      Forall2 evolves (conversations s) kept.
Proof.
  intros seen now u ai isUpdate s. unfold handleMessageSent.
  destruct isUpdate.
  - exists [], (map (fun conv => if isTargetConversation seen (conversations s) conv
                                  then updateConversation ai conv else conv)
                    (conversations s)).
    split; [reflexivity|]. split; [simpl; lia|].
    apply Forall2_map_evolves. intros c.
    destruct (isTargetConversation _ _ _); [apply evolves_update | apply evolves_refl].
  - destruct (selected seen).
    + exists [], (map (fun conv => if is_current conv seen
                                    then appendMessages (newMessages now u ai) conv
                                    else conv) (conversations s)).
      split; [reflexivity|]. split; [simpl; lia|].
      apply Forall2_map_evolves. intros c.
      destruct (is_current c seen); [apply evolves_append | apply evolves_refl].
    + eexists [_], (conversations s).
      split; [reflexivity|]. split; [simpl; lia|].
      pose proof (Forall2_map_evolves (fun c => c) (conversations s) evolves_refl) as H.
      now rewrite map_id in H.
Qed.

Lemma trailing_exists (msgs : list Message) :
  existsb is_assistant msgs = true ->
  exists pre msg post, trailing_assistant msgs pre msg post.
Proof.
  induction msgs as [|m rest IH]; simpl; [discriminate|].
  destruct (existsb is_assistant rest) eqn:Hr.
  - intros _. destruct (IH eq_refl) as [pre [msg [post [E [Ha Hp]]]]].
    exists (m :: pre), msg, post. repeat split; auto. now rewrite E.
  - rewrite orb_false_r. intros Ha. exists [], m, rest. repeat split; auto.
Qed.

Lemma updateMessages_cases (ai : string) (msgs : list Message) :
  (existsb is_assistant msgs = false /\ updateMessages ai msgs = msgs) \/
  (exists pre msg post,
     trailing_assistant msgs pre msg post /\
     updateMessages ai msgs = (pre ++ updated ai msg :: post)%list).
Proof.
  destruct (existsb is_assistant msgs) eqn:H.
  - right. destruct (trailing_exists msgs H) as [pre [msg [post Ht]]].
    exists pre, msg, post. split; [exact Ht | now apply updateMessages_trailing].
  - left. split; [reflexivity | now apply updateMessages_no_assistant].
Qed.

(** X7: an in-place update rewrites exactly one message of a conversation,
    its last assistant message, and nothing when the conversation has no
    assistant message. *)
Theorem X7_update_rewrites_last_assistant_only :
  forall (aiResponse : string) (msgs : list Message),
    (existsb is_assistant msgs = false /\ updateMessages aiResponse msgs = msgs) \/
    (exists pre msg post,
       trailing_assistant msgs pre msg post /\
       updateMessages aiResponse msgs = (pre ++ updated aiResponse msg :: post)%list).
Proof. exact updateMessages_cases. Qed.

Lemma updateMessages_twice (a b : string) (msgs : list Message) :
  updateMessages b (updateMessages a msgs) = updateMessages b msgs.
Proof.
  destruct (updateMessages_cases a msgs)
    as [[_ ->] | [pre [msg [post [Ht ->]]]]]; [reflexivity|].
  rewrite (updateMessages_trailing b msgs pre msg post Ht).
  destruct Ht as [_ [Ha Hp]].
  now rewrite (updateMessages_trailing b _ pre (updated a msg) post).
Qed.

Lemma isTargetConversation_stable (seen : option string) (f : Conversation -> Conversation)
    (convs : list Conversation) (c : Conversation) :
  conv_id (f c) = conv_id c ->
  isTargetConversation seen (map f convs) (f c) = isTargetConversation seen convs c.
Proof.
  intros Hid. unfold isTargetConversation, is_current.
  rewrite length_map. destruct seen; now rewrite ?Hid.
Qed.

(** X8: of two in-place updates made through the same handler the later
    one wins: the store is the one the later update alone would have left
    (so writing the same snapshot twice is writing it once). *)
Theorem X8_later_update_wins :
  forall (seen : option string) (now1 now2 : Z) (u1 u2 a b : string) (s : Index.State),
    handleMessageSent seen now2 u2 b true (handleMessageSent seen now1 u1 a true s)
      = handleMessageSent seen now2 u2 b true s.
Proof.
  intros seen now1 now2 u1 u2 a b s.
  set (f := fun conv => if isTargetConversation seen (conversations s) conv
                        then updateConversation a conv else conv).
  assert (Hid : forall c, conv_id (f c) = conv_id c).
  { intros c. unfold f. now destruct (isTargetConversation _ _ _). }
  unfold handleMessageSent. cbn [conversations currentConversationId showWelcome
                                   messageCount isLoading].
  fold f. f_equal.
  - rewrite map_map. apply map_ext. intros c.
    rewrite (isTargetConversation_stable seen f _ c (Hid c)).
    unfold f. destruct (isTargetConversation seen (conversations s) c); [|reflexivity].
    unfold updateConversation. cbn [conv_id title messages document].
    now rewrite updateMessages_twice.
  - destruct seen as [i|]; [reflexivity|].
    destruct (conversations s) as [|c [|c2 r]]; cbn [map]; [reflexivity| |reflexivity].
    now rewrite Hid.
Qed.

(** X9: when a message is submitted with no conversation selected while the
    store already holds conversations, the answer never reaches the
    placeholder: the handler that the submission holds saw no current
    conversation, the store now has more than one, and its in-place updates
    change no conversation at all. *)
Theorem X9_answer_dropped_without_selection :
  forall (now now' : Z) (u u' placeholderText aiResponse : string) (s : Index.State),
    conversations s <> [] ->
    conversations
      (handleMessageSent None now' u' aiResponse true
         (handleMessageSent None now u placeholderText false s))
      = conversations (handleMessageSent None now u placeholderText false s).
Proof.
  intros now now' u u' p ai s Hne.
  remember (handleMessageSent None now u p false s) as s1 eqn:E1.
  assert (Hlen : (List.length (conversations s1) =? 1)%nat = false).
  { subst s1. simpl. destruct (conversations s); [now elim Hne | reflexivity]. }
  unfold handleMessageSent. cbn [conversations].
  transitivity (map (fun c : Conversation => c) (conversations s1)); [|apply map_id].
  apply map_ext. intros c. unfold isTargetConversation. simpl. now rewrite Hlen.
Qed.

Lemma X9_answer_dropped_without_selection_witness :
  conversations
    (handleMessageSent None 3000 "again" "An answer." true
       (handleMessageSent None 2000 "again" "Friday is thinking..." false failed))
    = conversations (handleMessageSent None 2000 "again" "Friday is thinking..." false failed).
Proof.
  apply (X9_answer_dropped_without_selection 2000 3000 "again" "again"
           "Friday is thinking..." "An answer." failed).
  discriminate.
Defined.

(** *** Retry *)

Lemma findIndex_first (messageId : string) (acc pre : list Message) (msg : Message)
    (post : list Message) :
  Forall (fun m => id m <> messageId) pre ->
  id msg = messageId ->
  findIndex messageId acc (pre ++ msg :: post) = Some ((acc ++ pre)%list, msg).
Proof.
  intros Hpre Hid. revert acc. induction Hpre as [|x pre Hx _ IH]; intros acc; simpl.
  - apply String.eqb_eq in Hid. now rewrite Hid, app_nil_r.
  - apply String.eqb_neq in Hx. rewrite Hx, IH. now rewrite <- app_assoc.
Qed.

Lemma findIndex_found (messageId : string) (acc msgs before : list Message) (msg : Message) :
  findIndex messageId acc msgs = Some (before, msg) ->
  In msg msgs /\ id msg = messageId.
Proof.
  revert acc. induction msgs as [|x rest IH]; intros acc; simpl; [discriminate|].
  destruct (id x =? messageId) eqn:E.
  - intros [= _ <-]. apply String.eqb_eq in E. auto.
  - intros H. destruct (IH _ H). auto.
Qed.

(** X10: retrying an assistant message of the current conversation that
    directly follows a user message makes the store's append call with
    that user message's content and the thinking text: the pair goes to the
    end of the current conversation and the store is loading. *)
Theorem X10_retry_reappends_the_user_message :
  forall (now : Z) (messageId : string) (s : Index.State) (conv : Conversation)
         (before : list Message) (userMessage msg : Message) (after : list Message),
    getCurrentConversation s = Some conv ->
    messages conv = (before ++ userMessage :: msg :: after)%list ->
    Forall (fun m => id m <> messageId) (before ++ [userMessage]) ->
    id msg = messageId ->
    is_assistant msg = true ->
    is_user userMessage = true ->
    handleRetryMessage now messageId s
      = handleMessageSent (currentConversationId s) now (content userMessage)
          "Unico AI is thinking..." false s
    /\ isLoading (handleRetryMessage now messageId s) = true.
Proof.
  intros now mid s conv before u msg after Hcur Hmsgs Hpre Hid Ha Hu.
  assert (E : handleRetryMessage now mid s
              = handleMessageSent (currentConversationId s) now (content u)
                  "Unico AI is thinking..." false s).
  { unfold handleRetryMessage. rewrite Hcur, Hmsgs.
    replace (before ++ u :: msg :: after)%list
      with ((before ++ [u]) ++ msg :: after)%list by now rewrite <- app_assoc.
    rewrite (findIndex_first mid [] _ msg after Hpre Hid). cbn [app].
    rewrite Ha, map_app. cbn [map]. rewrite last_last. now rewrite Hu. }
  split; [exact E|]. rewrite E. unfold handleMessageSent. cbn.
  now destruct (selected (currentConversationId s)).
Qed.

Lemma X10_retry_reappends_the_user_message_witness :
  handleRetryMessage 2000 "assistant-1000" failed
    = handleMessageSent (currentConversationId failed) 2000 (content (userTurn "hi"))
        "Unico AI is thinking..." false failed
  /\ isLoading (handleRetryMessage 2000 "assistant-1000" failed) = true.
Proof.
  apply (X10_retry_reappends_the_user_message 2000 "assistant-1000" failed
           (updateConversation
              "Sorry, I encountered an error while processing your message. Please try again."
              (submittedConversation "hi"))
           [] (userTurn "hi")
           (updated
              "Sorry, I encountered an error while processing your message. Please try again."
              placeholder) []).
  - reflexivity.
  - reflexivity.
  - repeat constructor. discriminate.
  - reflexivity.
  - reflexivity.
  - reflexivity.
Defined.

(** X11: a retry leaves the store exactly as it is when the id it is given
    belongs to no assistant message of the current conversation: an unknown
    id, the id of a user message, or no current conversation at all. *)
Theorem X11_retry_ignores_other_ids :
  forall (now : Z) (messageId : string) (s : Index.State),
    (forall conv m, getCurrentConversation s = Some conv ->
                    In m (messages conv) -> id m = messageId -> is_user m = true) ->
    handleRetryMessage now messageId s = s.
Proof.
  intros now mid s H. unfold handleRetryMessage.
  destruct (getCurrentConversation s) as [conv|] eqn:Hc; [|reflexivity].
  destruct (findIndex mid [] (messages conv)) as [[before m]|] eqn:Hf; [|reflexivity].
  destruct (findIndex_found _ _ _ _ _ Hf) as [Hin Hid].
  specialize (H conv m eq_refl Hin Hid).
  unfold is_user in H. unfold is_assistant. now destruct (role m).
Qed.

Lemma X11_retry_ignores_other_ids_witness :
  handleRetryMessage 2000 "user-1000" failed = failed.
Proof.
  apply (X11_retry_ignores_other_ids 2000 "user-1000" failed).
  intros conv m [= <-] Hin Hid. simpl in Hin.
  destruct Hin as [<- | [<- | []]]; [reflexivity | discriminate Hid].
Defined.

(** *** Titles *)

Lemma take_all (n : nat) (s : string) : String.length s <= n -> take n s = s.
Proof.
  revert n. induction s as [|c r IH]; intros [|n] H; simpl in *; try reflexivity; try lia.
  rewrite IH; [reflexivity | lia].
Qed.

Lemma length_take (n : nat) (s : string) :
  String.length (take n s) = Nat.min n (String.length s).
Proof.
  revert n. induction s as [|c r IH]; intros [|n]; simpl; try reflexivity.
  now rewrite IH.
Qed.

Lemma take_prefix (n : nat) (s : string) : String.prefix (take n s) s = true.
Proof.
  revert n. induction s as [|c r IH]; intros [|n]; simpl; try reflexivity.
  destruct (ascii_dec c c) as [_|ne]; [apply IH | now elim ne].
Qed.

(** X12: a message submitted with no conversation selected opens a new
    conversation in front of the others and makes it the current one; its
    title is the message itself up to 20 characters and otherwise the first
    20 characters followed by three dots, so at most 23 characters that
    start like the message. *)
Theorem X12_new_conversation_and_title :
  forall (now : Z) (userMessage aiResponse : string) (s : Index.State),
    getCurrentConversation (handleMessageSent None now userMessage aiResponse false s)
      = Some {| conv_id := showZ now; title := titleOf userMessage;
                messages := newMessages now userMessage aiResponse; document := None |}
    /\ map conv_id (conversations (handleMessageSent None now userMessage aiResponse false s))
       = showZ now :: map conv_id (conversations s)
    /\ titleOf userMessage
       = (if (String.length userMessage <=? 20)%nat then userMessage
          else take 20 userMessage ++ "...")
    /\ String.length (titleOf userMessage) <= 23
    /\ String.prefix (take 20 userMessage) userMessage = true.
Proof.
  intros now u ai s. split; [|split; [reflexivity|split; [|split]]].
  - unfold getCurrentConversation, handleMessageSent. cbn.
    now rewrite String.eqb_refl.
  - unfold titleOf. destruct (Nat.leb_spec (String.length u) 20) as [H|H].
    + rewrite (take_all 20 u H).
      replace (20 <? String.length u)%nat with false
        by (symmetry; apply Nat.ltb_ge; exact H).
      apply append_empty_r.
    + now replace (20 <? String.length u)%nat with true
        by (symmetry; apply Nat.ltb_lt; exact H).
  - unfold titleOf. rewrite length_append, length_take.
    destruct (20 <? String.length u)%nat; cbn [String.length]; lia.
  - apply take_prefix.
Qed.

(* ================================================================= *)
(** ** Further properties of the dispatcher *)

Import ChatInputView.

Lemma toasts_app (a b : list Effect) : toasts (a ++ b) = (toasts a ++ toasts b)%list.
Proof.
  induction a as [|e a IH]; simpl; [reflexivity|].
  destruct e; simpl; now rewrite IH.
Qed.

Lemma uploads_app (a b : list Effect) : uploads (a ++ b) = (uploads a ++ uploads b)%list.
Proof.
  induction a as [|e a IH]; simpl; [reflexivity|].
  destruct e; simpl; now rewrite IH.
Qed.

Lemma toasts_callbacks (u : string) (cs : list Callback) :
  toasts (map (onCallback u) cs) = [].
Proof. induction cs as [|c cs IH]; simpl; [reflexivity | now destruct c]. Qed.

Lemma uploads_callbacks (u : string) (cs : list Callback) :
  uploads (map (onCallback u) cs) = [].
Proof. induction cs as [|c cs IH]; simpl; [reflexivity | now destruct c]. Qed.

Lemma setState_callbacks (u : string) (cs : list Callback) (st : ChatInput.State) :
  message (afterEffects st (map (onCallback u) cs)) = message st /\
  isStreaming (afterEffects st (map (onCallback u) cs)) = isStreaming st /\
  selectedTool (afterEffects st (map (onCallback u) cs)) = selectedTool st /\
  attachedFile (afterEffects st (map (onCallback u) cs)) = attachedFile st.
Proof.
  unfold afterEffects. revert st. induction cs as [|c cs IH]; intros st; simpl.
  - auto.
  - destruct (IH (setState st (onCallback u c))) as (H1 & H2 & H3 & H4).
    rewrite H1, H2, H3, H4. now destruct c.
Qed.

Section Submission.
Variable JSON_parse : string -> option JsValue.
Variable SearchData : Type.
Variable formatSearchResults : SearchData -> option string.
Variable remote : Remote SearchData.

(** X13: an accepted submission always ends with the input cleared and the
    streaming flag down, whatever the service did, so the next submission is
    not blocked; the selected tool and the attached file are as before. *)
Theorem X13_submission_leaves_input_ready :
  forall (conversationDocument : option File) (st : ChatInput.State),
    accepted st ->
    message (afterEffects st (handleSubmit JSON_parse SearchData formatSearchResults remote
                                conversationDocument st)) = ""
    /\ isStreaming (afterEffects st (handleSubmit JSON_parse SearchData formatSearchResults
                                       remote conversationDocument st)) = false
    /\ selectedTool (afterEffects st (handleSubmit JSON_parse SearchData formatSearchResults
                                        remote conversationDocument st)) = selectedTool st
    /\ attachedFile (afterEffects st (handleSubmit JSON_parse SearchData formatSearchResults
                                        remote conversationDocument st)) = attachedFile st.
Proof.
  intros doc st Hacc. unfold handleSubmit. rewrite (accepted_guard st Hacc).
  destruct (documentToUse (attachedFile st) doc) as [file|].
  - unfold afterEffects. cbn [fold_left setState]. rewrite fold_left_app.
    match goal with
    | |- context [fold_left setState (map (onCallback ?u) ?cs) ?st0] =>
        destruct (setState_callbacks u cs st0) as (H1 & H2 & H3 & H4);
        unfold afterEffects in H1, H2, H3, H4;
        set (mid := fold_left setState (map (onCallback u) cs) st0) in *
    end.
    cbn in H1, H3, H4.
    destruct (completion _); [destruct (attachedFile st) eqn:Hat|]; cbn;
      rewrite ?H1, ?H3, ?H4; repeat split.
  - unfold afterEffects. destruct Hacc as [_ Hs].
    destruct (selectedTool st) eqn:Ht; cbn [fold_left setState].
    + unfold chatReply. destruct (sendMessage SearchData remote (message st)) as [| |r];
        try (cbn; repeat split; assumption).
      destruct (r =? ""); cbn; repeat split; assumption.
    + destruct (performDeepSearch SearchData remote (message st)) as [| |d];
        try (cbn; repeat split; assumption).
      destruct (formatSearchResults d); cbn; repeat split; assumption.
    + unfold chatReply.
      destruct (sendMessage SearchData remote (markdownPrompt (message st))) as [| |r];
        try (cbn; repeat split; assumption).
      destruct (r =? ""); cbn; repeat split; assumption.
Qed.


(** X15: a submission shows a toast only by ending in its catch block: the
    effects of an accepted submission either hold no toast, or end with the
    effects of the catch block (streaming flag down, error text written in
    place, toast) and hold no other toast. *)
Theorem X15_toast_only_from_catch_block :
  forall (conversationDocument : option File) (st : ChatInput.State),
    accepted st ->
    toasts (handleSubmit JSON_parse SearchData formatSearchResults remote
              conversationDocument st) = [] \/
    exists body,
      handleSubmit JSON_parse SearchData formatSearchResults remote conversationDocument st
        = (body ++ onError (message st)
                     (documentToUse (attachedFile st) conversationDocument)
                     (selectedTool st))%list
      /\ toasts body = [].
Proof.
  intros doc st Hacc. unfold handleSubmit. rewrite (accepted_guard st Hacc).
  destruct (documentToUse (attachedFile st) doc) as [file|].
  - destruct (completion _) eqn:Hc.
    + left. cbn [toasts]. rewrite toasts_app, toasts_callbacks.
      now destruct (attachedFile st).
    + right. eexists (_ :: _ :: _ :: _ :: map _ _). split; [reflexivity|].
      cbn [toasts]. apply toasts_callbacks.
  - destruct (selectedTool st).
    + unfold chatReply. destruct (sendMessage SearchData remote (message st)) as [| |r];
        try (right; eexists [_; _; _]; split; reflexivity).
      destruct (r =? ""); [right; eexists [_; _; _]; split; reflexivity | now left].
    + destruct (performDeepSearch SearchData remote (message st)) as [| |d];
        try (right; eexists [_; _; _]; split; reflexivity).
      destruct (formatSearchResults d);
        [now left | right; eexists [_; _; _]; split; reflexivity].
    + unfold chatReply.
      destruct (sendMessage SearchData remote (markdownPrompt (message st))) as [| |r];
        try (right; eexists [_; _; _]; split; reflexivity).
      destruct (r =? ""); [right; eexists [_; _; _]; split; reflexivity | now left].
Qed.

(** X16: the only file a submission hands to [onDocumentUploaded] is the
    file attached to it, and only when its stream ended normally; a failed
    stream, a document that was merely bound to the conversation, and a
    submission without a document hand over nothing. *)
Theorem X16_only_an_answered_attachment_is_bound :
  forall (conversationDocument : option File) (st : ChatInput.State),
    accepted st ->
    uploads (handleSubmit JSON_parse SearchData formatSearchResults remote
               conversationDocument st)
      = match attachedFile st with
        | Some file =>
            match completion (ragQueryStream JSON_parse true true
                                (ragStream SearchData remote (message st) file)) with
            | Returned _ => [file]
            | Thrown _ => []
            end
        | None => []
        end.
Proof.
  intros doc st Hacc. unfold handleSubmit. rewrite (accepted_guard st Hacc).
  unfold documentToUse. destruct (attachedFile st) as [f|].
  - cbn [uploads]. rewrite uploads_app, uploads_callbacks.
    now destruct (completion _).
  - destruct doc as [f|].
    + cbn [uploads]. rewrite uploads_app, uploads_callbacks.
      now destruct (completion _).
    + destruct (selectedTool st); cbn [uploads].
      * unfold chatReply. destruct (sendMessage SearchData remote (message st)) as [| |r];
          try reflexivity. now destruct (r =? "").
      * destruct (performDeepSearch SearchData remote (message st)) as [| |d];
          try reflexivity. now destruct (formatSearchResults d).
      * unfold chatReply.
        destruct (sendMessage SearchData remote (markdownPrompt (message st))) as [| |r];
          try reflexivity. now destruct (r =? "").
Qed.

End Submission.

(** X17: the placeholder of the input tells where the submission will go:
    it is the document prompt exactly when the dispatcher will run the
    document-QA stream, whatever tool is selected. *)
Theorem X17_placeholder_agrees_with_dispatch :
  forall (conversationDocument : option File) (st : ChatInput.State),
    getPlaceholderText (attachedFile st) conversationDocument (selectedTool st)
      = "Ask a question about your attached document..."
    <-> exists file, dispatched conversationDocument st = RagQueryStream (message st) file.
Proof.
  intros doc st. unfold getPlaceholderText, dispatched, documentToUse.
  destruct (attachedFile st) as [f|]; [split; [now exists f | reflexivity]|].
  destruct doc as [f|]; [split; [now exists f | reflexivity]|].
  destruct (selectedTool st); split; try discriminate; intros [file H]; discriminate H.
Qed.

Lemma X13_submission_leaves_input_ready_witness :
  message (afterEffects question
             (handleSubmit Json.parse unit noFormat (service Empty) None question)) = ""
  /\ isStreaming (afterEffects question
                    (handleSubmit Json.parse unit noFormat (service Empty) None question))
     = false
  /\ selectedTool (afterEffects question
                     (handleSubmit Json.parse unit noFormat (service Empty) None question))
     = selectedTool question
  /\ attachedFile (afterEffects question
                     (handleSubmit Json.parse unit noFormat (service Empty) None question))
     = attachedFile question.
Proof.
  apply (X13_submission_leaves_input_ready Json.parse unit noFormat (service Empty)
           None question).
  split; [discriminate | reflexivity].
Defined.


Lemma X15_toast_only_from_catch_block_witness :
  toasts (handleSubmit Json.parse unit noFormat (service Failed) None hello) = [] \/
  exists body,
    handleSubmit Json.parse unit noFormat (service Failed) None hello
      = (body ++ onError (message hello) (documentToUse (attachedFile hello) None)
                   (selectedTool hello))%list
    /\ toasts body = [].
Proof.
  apply (X15_toast_only_from_catch_block Json.parse unit noFormat (service Failed) None hello).
  split; [discriminate | reflexivity].
Defined.

Lemma X16_only_an_answered_attachment_is_bound_witness :
  uploads (handleSubmit Json.parse unit noFormat (service Empty) None question)
    = match attachedFile question with
      | Some file =>
          match completion (ragQueryStream Json.parse true true
                              (ragStream unit (service Empty) (message question) file)) with
          | Returned _ => [file]
          | Thrown _ => []
          end
      | None => []
      end.
Proof.
  apply (X16_only_an_answered_attachment_is_bound Json.parse unit noFormat (service Empty)
           None question).
  split; [discriminate | reflexivity].
Defined.

(* ================================================================= *)
(** ** Further properties of the save effect *)

Lemma withoutDocument_twice (conv : Conversation) :
  withoutDocument (withoutDocument conv) = withoutDocument conv.
Proof. reflexivity. Qed.

Lemma firstn_own_length {A : Type} (n : nat) (l : list A) :
  firstn (List.length (firstn n l)) l = firstn n l.
Proof.
  revert n. induction l as [|a l IH]; intros [|n]; simpl; try reflexivity.
  f_equal. apply IH.
Qed.

Lemma stripped_is_leading (n : nat) (convs : list Conversation) :
  map withoutDocument (map withoutDocument (firstn n convs))
    = firstn (List.length (map withoutDocument (firstn n convs)))
        (map withoutDocument convs).
Proof.
  rewrite map_map, (map_ext _ _ withoutDocument_twice), length_map.
  now rewrite firstn_map, firstn_own_length.
Qed.

Lemma reduced_is_leading (n : nat) (convs : list Conversation) :
  map withoutDocument (firstn n convs)
    = firstn (List.length (firstn n convs)) (map withoutDocument convs).
Proof.
  now rewrite firstn_map, firstn_own_length.
Qed.

(** X18: the save effect makes at most two writes, none of more than fifty
    conversations, and lets no exception out.  What it leaves under the
    storage key is either what was there before or a write the storage
    accepted: at most fifty conversations which, their documents aside, are
    the leading conversations of the store in their order.  Before the
    initial load it writes nothing. *)
Theorem X18_save_effect_stores_leading_conversations :
  forall (setItem : Item -> bool) (isLoaded : bool) (convs : list Conversation)
         (before : option Item),
    List.length (attempts (saveEffect setItem isLoaded convs before)) <= 2 /\
    Forall (fun item => List.length item <= 50)
      (attempts (saveEffect setItem isLoaded convs before)) /\
    crashed (saveEffect setItem isLoaded convs before) = false /\
    (stored (saveEffect setItem isLoaded convs before) = before \/
     exists item,
       stored (saveEffect setItem isLoaded convs before) = Some item /\
       setItem item = true /\
       List.length item <= 50 /\
       map withoutDocument item
         = firstn (List.length item) (map withoutDocument convs)) /\
    saveEffect setItem false convs before = mkSaved [] before false.
Proof.
  intros setItem isLoaded convs before.
  assert (L1 : List.length (map withoutDocument (firstn MAX_CONVERSATIONS convs)) <= 50).
  { rewrite length_map. apply firstn_le_length. }
  assert (L2 : List.length (firstn (MAX_CONVERSATIONS / 2) convs) <= 50).
  { etransitivity; [apply firstn_le_length | cbn; lia]. }
  assert (Hoff : saveEffect setItem false convs before = mkSaved [] before false)
    by reflexivity.
  unfold saveEffect. destruct isLoaded; cbn [negb].
  - destruct (setItem (map withoutDocument (firstn MAX_CONVERSATIONS convs))) eqn:H1.
    + cbn [attempts stored crashed List.length].
      split; [lia|]. split; [apply Forall_cons; [exact L1 | apply Forall_nil]|].
      split; [reflexivity|]. split; [|exact Hoff].
      right. eexists. split; [reflexivity|]. split; [exact H1|].
      split; [exact L1 | apply stripped_is_leading].
    + destruct (setItem (firstn (MAX_CONVERSATIONS / 2) convs)) eqn:H2;
        cbn [attempts stored crashed List.length];
        (split; [lia|]);
        (split; [apply Forall_cons; [exact L1 | apply Forall_cons; [exact L2 | apply Forall_nil]]|]);
        (split; [reflexivity|]); (split; [|exact Hoff]).
      * right. eexists. split; [reflexivity|]. split; [exact H2|].
        split; [exact L2 | apply reduced_is_leading].
      * now left.
  - cbn [attempts stored crashed List.length].
    split; [lia|]. split; [constructor|]. split; [reflexivity|].
    split; [now left | exact Hoff].
Qed.



(* ================================================================= *)
(** ** File validation *)

Lemma known_iff (fileType : string) :
  FileUtils.known fileType = true <->
  In fileType (map fst FileUtils.SUPPORTED_FILE_TYPES) \/ In fileType FileUtils.inherited.
Proof.
  unfold FileUtils.known. rewrite orb_true_iff, !existsb_exists. split.
  - intros [[e [Hin He]] | [k [Hin Hk]]]; apply String.eqb_eq in He || apply String.eqb_eq in Hk.
    + left. subst. now apply in_map.
    + right. now subst.
  - intros [H | H].
    + left. apply in_map_iff in H as [e [He Hin]]. exists e. split; [exact Hin|].
      now apply String.eqb_eq.
    + right. exists fileType. split; [exact H | apply String.eqb_refl].
Qed.

(** X20: a file passes the validation exactly when its type is one of the
    eight listed MIME types, or the name of a property every object
    inherits, and its size is at most 52428800 bytes (50 MB, the bound
    included); a passing file has no error text and a failing one has one:
    for an unknown type the text that lists the eight extensions in the
    order of the table, whatever the size, and otherwise the size text. *)
Theorem X20_validateFileType_accepts :
  forall (file : FileUtils.File),
    (FileUtils.isValid (FileUtils.validateFileType file) = true <->
       (In (FileUtils.type file) (map fst FileUtils.SUPPORTED_FILE_TYPES)
        \/ In (FileUtils.type file) FileUtils.inherited)
       /\ (FileUtils.size file <= 52428800)%Z) /\
    (FileUtils.isValid (FileUtils.validateFileType file) = true <->
       FileUtils.error (FileUtils.validateFileType file) = None) /\
    FileUtils.error (FileUtils.validateFileType file)
      = (if FileUtils.known (FileUtils.type file)
         then if (FileUtils.size file <=? 52428800)%Z then None
              else Some "File size too large. Maximum size is 50MB."
         else Some "Unsupported file type. Supported formats: .pdf, .txt, .doc, .docx, .md, .rtf, .csv, .json").
Proof.
  intros file. rewrite <- known_iff. unfold FileUtils.validateFileType.
  destruct (FileUtils.known (FileUtils.type file)); cbn [negb].
  - change FileUtils.maxSize with 52428800%Z.
    destruct (Z.ltb_spec 52428800 (FileUtils.size file)) as [H|H]; cbn.
    + replace (FileUtils.size file <=? 52428800)%Z with false
        by (symmetry; apply Z.leb_gt; exact H).
      repeat split; try discriminate. intros [_ H']. lia.
    + replace (FileUtils.size file <=? 52428800)%Z with true
        by (symmetry; apply Z.leb_le; exact H).
      repeat split; auto; try discriminate.
  - cbn. repeat split; try discriminate. now intros [H _].
Qed.

(* ================================================================= *)
(** ** Language detection *)

Import Lang.

Lemma test_iff (lo hi : N) (text : Text) :
  test lo hi text = true <-> has_unit lo hi text.
Proof.
  unfold test, has_unit. rewrite existsb_exists. split.
  - intros [c [Hin Hc]]. exists c. split; [exact Hin|].
    apply andb_true_iff in Hc as [H1 H2]. apply N.leb_le in H1, H2. lia.
  - intros [c [Hin [H1 H2]]]. exists c. split; [exact Hin|].
    apply andb_true_iff. split; now apply N.leb_le.
Qed.

Lemma test_false_iff (lo hi : N) (text : Text) :
  test lo hi text = false <-> ~ has_unit lo hi text.
Proof.
  rewrite <- test_iff. destruct (test lo hi text); split; intros H;
    congruence || (intros H'; congruence).
Qed.

Lemma space_outside (c : N) : Lang.is_space c = true -> (c < 2304 \/ 3455 < c)%N.
Proof.
  unfold Lang.is_space.
  rewrite !orb_true_iff, !andb_true_iff, !N.eqb_eq, !N.leb_le. lia.
Qed.

Lemma test_trimStart (lo hi : N) (text : Text) :
  (2304 <= lo)%N -> (hi <= 3455)%N ->
  test lo hi (Lang.trimStart text) = test lo hi text.
Proof.
  intros Hlo Hhi. induction text as [|c rest IH]; [reflexivity|].
  cbn [Lang.trimStart]. destruct (Lang.is_space c) eqn:Hs; [|reflexivity].
  rewrite IH. unfold test at 2. cbn [existsb]. fold (test lo hi rest).
  apply space_outside in Hs.
  replace ((lo <=? c) && (c <=? hi))%N with false; [reflexivity|].
  symmetry. apply andb_false_iff.
  destruct Hs; [left; apply N.leb_gt | right; apply N.leb_gt]; lia.
Qed.

Lemma test_rev (lo hi : N) (text : Text) : test lo hi (rev text) = test lo hi text.
Proof.
  unfold test. induction text as [|c rest IH]; [reflexivity|].
  cbn [rev existsb]. rewrite existsb_app, IH. cbn [existsb].
  rewrite orb_false_r. apply orb_comm.
Qed.

Lemma test_trim (lo hi : N) (text : Text) :
  (2304 <= lo)%N -> (hi <= 3455)%N ->
  test lo hi (Lang.trim text) = test lo hi text.
Proof.
  intros Hlo Hhi. unfold Lang.trim.
  now rewrite test_rev, test_trimStart, test_rev, test_trimStart.
Qed.

(** X21: Devanagari wins: a text with a code unit between U+0900 and U+097F
    outside its tags is detected as 'hi-IN', whatever other scripts it
    holds. *)
Theorem X21_devanagari_is_detected_first :
  forall (text : Text),
    has_unit 2304 2431 (stripTags text) -> detectLanguage text = "hi-IN".
Proof.
  intros text H. unfold detectLanguage.
  rewrite test_trim by lia. apply test_iff in H. now rewrite H.
Qed.

Lemma X21_devanagari_is_detected_first_witness :
  detectLanguage [2965; 32; 2325]%N = "hi-IN".
Proof.
  apply (X21_devanagari_is_detected_first [2965; 32; 2325]%N).
  exists 2325%N. split; [simpl; auto | lia].
Defined.

(** X22: the answer is one of nine tags, never the Marathi one, and it is
    'en-US' exactly when the text outside tags holds no code unit between
    U+0900 and U+0AFF nor between U+0B80 and U+0D7F (so also for the
    scripts of other blocks, such as U+0B00 to U+0B7F). *)
Theorem X22_english_is_the_default :
  forall (text : Text),
    In (detectLanguage text)
       ["hi-IN"; "gu-IN"; "ta-IN"; "te-IN"; "kn-IN"; "ml-IN"; "bn-IN"; "pa-IN"; "en-US"]
    /\ (detectLanguage text = "en-US" <->
        ~ has_unit 2304 2815 (stripTags text) /\ ~ has_unit 2944 3455 (stripTags text)).
Proof.
  intros text. unfold detectLanguage. rewrite !test_trim by lia.
  set (t := stripTags text).
  split.
  - repeat (match goal with |- context [if ?b then _ else _] => destruct b end;
            [simpl; auto 12|]).
    simpl; auto 12.
  - split.
    + intros H.
      destruct (test 2304 2431 t) eqn:T1; [discriminate|].
      destruct (test 2688 2815 t) eqn:T2; [discriminate|].
      destruct (test 2944 3071 t) eqn:T3; [discriminate|].
      destruct (test 3072 3199 t) eqn:T4; [discriminate|].
      destruct (test 3200 3327 t) eqn:T5; [discriminate|].
      destruct (test 3328 3455 t) eqn:T6; [discriminate|].
      destruct (test 2432 2559 t) eqn:T7; [discriminate|].
      destruct (test 2560 2687 t) eqn:T8; [discriminate|].
      apply test_false_iff in T1, T2, T3, T4, T5, T6, T7, T8.
      split; intros [c [Hin Hc]].
      * destruct (N.le_gt_cases c 2431); [apply T1; exists c; split; [auto|lia]|].
        destruct (N.le_gt_cases c 2559); [apply T7; exists c; split; [auto|lia]|].
        destruct (N.le_gt_cases c 2687); [apply T8; exists c; split; [auto|lia]|].
        apply T2; exists c; split; [auto|lia].
      * destruct (N.le_gt_cases c 3071); [apply T3; exists c; split; [auto|lia]|].
        destruct (N.le_gt_cases c 3199); [apply T4; exists c; split; [auto|lia]|].
        destruct (N.le_gt_cases c 3327); [apply T5; exists c; split; [auto|lia]|].
        apply T6; exists c; split; [auto|lia].
    + intros [A B].
      assert (F : forall lo hi,
                 ((2304 <= lo /\ hi <= 2815) \/ (2944 <= lo /\ hi <= 3455))%N ->
                 test lo hi t = false).
      { intros lo hi Hr. apply test_false_iff. intros [c [Hin Hc]].
        destruct Hr; [apply A | apply B]; exists c; split; auto; lia. }
      now rewrite !F by lia.
Qed.

Lemma inTag_closes (tag rest : Text) :
  ~ In gt tag -> inTag (tag ++ gt :: rest)%list = stripTags rest.
Proof.
  induction tag as [|c tag IH]; intros Hn; cbn [app inTag].
  - now rewrite N.eqb_refl.
  - destruct (N.eqb_spec c gt) as [->|_]; [elim Hn; now left|].
    apply IH. intros H. apply Hn. now right.
Qed.



(* ================================================================= *)
(** ** The relative time label *)

(** X24: the label depends on the age in milliseconds by fixed thresholds:
    under a minute 'Just now' (also for a negative age), under an hour the
    whole minutes, under a day the whole hours, under a week the whole days,
    and from a week on the locale date; the number shown is never 0 and stays
    below 60 minutes, 24 hours and 7 days. *)
Theorem X24_time_label_thresholds :
  forall (localeDate : string) (diff : Z),
    Timestamp.timeString localeDate diff
      = (if (diff <? 60000)%Z then "Just now"
         else if (diff <? 3600000)%Z then showZ (diff / 60000) ++ "m ago"
         else if (diff <? 86400000)%Z then showZ (diff / 3600000) ++ "h ago"
         else if (diff <? 604800000)%Z then showZ (diff / 86400000) ++ "d ago"
         else localeDate)
    /\ (Timestamp.timeString localeDate diff = "Just now"
        \/ (exists n, (1 <= n <= 59)%Z /\
                      Timestamp.timeString localeDate diff = showZ n ++ "m ago")
        \/ (exists n, (1 <= n <= 23)%Z /\
                      Timestamp.timeString localeDate diff = showZ n ++ "h ago")
        \/ (exists n, (1 <= n <= 6)%Z /\
                      Timestamp.timeString localeDate diff = showZ n ++ "d ago")
        \/ ((604800000 <= diff)%Z /\ Timestamp.timeString localeDate diff = localeDate)).
Proof.
  intros localeDate diff.
  assert (Hh : (diff / 60000 / 60 = diff / 3600000)%Z)
    by (rewrite Z.div_div by lia; reflexivity).
  assert (Hd : (diff / 60000 / 60 / 24 = diff / 86400000)%Z)
    by (rewrite !Z.div_div by lia; reflexivity).
  assert (E : Timestamp.timeString localeDate diff
              = (if (diff <? 60000)%Z then "Just now"
                 else if (diff <? 3600000)%Z then showZ (diff / 60000) ++ "m ago"
                 else if (diff <? 86400000)%Z then showZ (diff / 3600000) ++ "h ago"
                 else if (diff <? 604800000)%Z then showZ (diff / 86400000) ++ "d ago"
                 else localeDate)).
  { unfold Timestamp.timeString. cbv zeta. rewrite Hd, Hh.
    destruct (Z.ltb_spec diff 60000) as [H1|H1].
    - replace (diff / 60000 <? 1)%Z with true; [reflexivity|].
      symmetry. apply Z.ltb_lt. Z.div_mod_to_equations. lia.
    - replace (diff / 60000 <? 1)%Z with false
        by (symmetry; apply Z.ltb_ge; Z.div_mod_to_equations; lia).
      destruct (Z.ltb_spec diff 3600000) as [H2|H2].
      + replace (diff / 60000 <? 60)%Z with true; [reflexivity|].
        symmetry. apply Z.ltb_lt. Z.div_mod_to_equations. lia.
      + replace (diff / 60000 <? 60)%Z with false
          by (symmetry; apply Z.ltb_ge; Z.div_mod_to_equations; lia).
        destruct (Z.ltb_spec diff 86400000) as [H3|H3].
        * replace (diff / 3600000 <? 24)%Z with true; [reflexivity|].
          symmetry. apply Z.ltb_lt. Z.div_mod_to_equations. lia.
        * replace (diff / 3600000 <? 24)%Z with false
            by (symmetry; apply Z.ltb_ge; Z.div_mod_to_equations; lia).
          destruct (Z.ltb_spec diff 604800000) as [H4|H4].
          -- replace (diff / 86400000 <? 7)%Z with true; [reflexivity|].
             symmetry. apply Z.ltb_lt. Z.div_mod_to_equations. lia.
          -- replace (diff / 86400000 <? 7)%Z with false; [reflexivity|].
             symmetry. apply Z.ltb_ge. Z.div_mod_to_equations. lia. }
  split; [exact E|]. rewrite E.
  destruct (Z.ltb_spec diff 60000) as [H1|H1]; [now left|].
  destruct (Z.ltb_spec diff 3600000) as [H2|H2].
  { right; left. exists (diff / 60000)%Z. split; [|reflexivity].
    Z.div_mod_to_equations. lia. }
  destruct (Z.ltb_spec diff 86400000) as [H3|H3].
  { right; right; left. exists (diff / 3600000)%Z. split; [|reflexivity].
    Z.div_mod_to_equations. lia. }
  destruct (Z.ltb_spec diff 604800000) as [H4|H4].
  { right; right; right; left. exists (diff / 86400000)%Z. split; [|reflexivity].
    Z.div_mod_to_equations. lia. }
  right; right; right; right. now split.
Qed.

(* ================================================================= *)
(** ** Requests that give no stream, and the metadata callbacks *)

Import Js.

Lemma X25_handleSubmit_appends_first_witness :
  exists rest,
    handleSubmit Json.parse unit noFormat (service Empty) None question
      = SetMessage "" :: MessageSent (message question) "Friday is thinking..." false :: rest
    /\ requests rest = [dispatched None question].
Proof.
  apply (handleSubmit_appends_first Json.parse unit noFormat (service Empty) None question).
  split; [discriminate | reflexivity].
Defined.

(** X26: when the request of a document-QA submission gives no readable
    stream, no callback is ever called by the streaming operations, and the
    submission makes exactly one in-place update, the error text of the RAG
    query, shows its toast and binds no document. *)
Theorem X26_unreadable_stream_ends_in_error :
  forall (JSON_parse : string -> option JsValue) (SearchData : Type)
         (formatSearchResults : SearchData -> option string)
         (remote : Remote SearchData) (conversationDocument : option File)
         (st : ChatInput.State) (file : File),
    accepted st ->
    documentToUse (attachedFile st) conversationDocument = Some file ->
    unreadable (ragStream SearchData remote (message st) file) ->
    calls (ragQueryStream JSON_parse true true (ragStream SearchData remote (message st) file))
      = []
    /\ calls (sendMessageStream JSON_parse (ragStream SearchData remote (message st) file))
       = []
    /\ updates (handleSubmit JSON_parse SearchData formatSearchResults remote
                  conversationDocument st)
       = ["Sorry, I encountered an error while processing your RAG query. Please try again."]
    /\ toasts (handleSubmit JSON_parse SearchData formatSearchResults remote
                 conversationDocument st)
       = ["Failed to RAG query. Please try again."]
    /\ uploads (handleSubmit JSON_parse SearchData formatSearchResults remote
                  conversationDocument st) = [].
Proof.
  intros parse SD fmt remote doc st file Hacc Hdoc Hun.
  assert (Hrun : exists e, ragQueryStream parse true true (ragStream SD remote (message st) file)
                           = mkRun [] (Thrown e)).
  { destruct (ragStream SD remote (message st) file) as [e|r]; simpl in *.
    - now exists e.
    - destruct Hun as [-> | Hb]; simpl; [eexists; reflexivity|].
      destruct (ok r); simpl; [rewrite Hb|]; eexists; reflexivity. }
  assert (Hchat : calls (sendMessageStream parse (ragStream SD remote (message st) file)) = []).
  { destruct (ragStream SD remote (message st) file) as [e|r]; simpl in *; [reflexivity|].
    destruct Hun as [-> | Hb]; simpl; [reflexivity|].
    destruct (ok r); simpl; [now rewrite Hb | reflexivity]. }
  destruct Hrun as [e Hrun].
  split; [now rewrite Hrun|]. split; [exact Hchat|].
  unfold handleSubmit. rewrite (accepted_guard st Hacc), Hdoc, Hrun. cbn.
  repeat split; reflexivity.
Qed.

Lemma X26_unreadable_stream_ends_in_error_witness :
  calls (ragQueryStream Json.parse true true
           (ragStream unit
              {| ragStream := fun _ _ => Rejected "Failed to fetch";
                 performDeepSearch := fun _ => Failed;
                 sendMessage := fun _ => Failed |} (message question) paper)) = []
  /\ calls (sendMessageStream Json.parse
              (ragStream unit
                 {| ragStream := fun _ _ => Rejected "Failed to fetch";
                    performDeepSearch := fun _ => Failed;
                    sendMessage := fun _ => Failed |} (message question) paper)) = []
  /\ updates (handleSubmit Json.parse unit noFormat
                {| ragStream := fun _ _ => Rejected "Failed to fetch";
                   performDeepSearch := fun _ => Failed;
                   sendMessage := fun _ => Failed |} None question)
     = ["Sorry, I encountered an error while processing your RAG query. Please try again."]
  /\ toasts (handleSubmit Json.parse unit noFormat
               {| ragStream := fun _ _ => Rejected "Failed to fetch";
                  performDeepSearch := fun _ => Failed;
                  sendMessage := fun _ => Failed |} None question)
     = ["Failed to RAG query. Please try again."]
  /\ uploads (handleSubmit Json.parse unit noFormat
                {| ragStream := fun _ _ => Rejected "Failed to fetch";
                   performDeepSearch := fun _ => Failed;
                   sendMessage := fun _ => Failed |} None question) = [].
Proof.
  apply (X26_unreadable_stream_ends_in_error Json.parse unit noFormat
           {| ragStream := fun _ _ => Rejected "Failed to fetch";
              performDeepSearch := fun _ => Failed;
              sendMessage := fun _ => Failed |} None question paper).
  - split; [discriminate | reflexivity].
  - reflexivity.
  - exact I.
Defined.

Lemma same_text_appendText (t : string) (d d' : Decoder) :
  same_text d d' -> same_text (appendText t d) (appendText t d').
Proof.
  intros (Ha & Hr & Hs). unfold same_text, appendText. cbn.
  rewrite !snapshots_app, Ha, Hs. repeat split; reflexivity.
Qed.

Lemma same_text_call_l (c : Callback) (d d' : Decoder) :
  snapshots [c] = [] -> same_text d d' -> same_text (call c d) d'.
Proof.
  intros Hc (Ha & Hr & Hs). unfold same_text, call. cbn.
  rewrite snapshots_app, Hc, app_nil_r. auto.
Qed.

Lemma same_text_call_r (c : Callback) (d d' : Decoder) :
  snapshots [c] = [] -> same_text d d' -> same_text d (call c d').
Proof.
  intros Hc (Ha & Hr & Hs). unfold same_text, call. cbn.
  rewrite snapshots_app, Hc, app_nil_r. auto.
Qed.

Section Metadata.
Variable JSON_parse : string -> option JsValue.
Variables a t a' t' : bool.

Lemma ragData_same_text (data : JsValue) (d d' : Decoder) :
  same_text d d' -> same_text (ragData a t data d) (ragData a' t' data d').
Proof.
  intros H. unfold ragData.
  set (d1 := if truthy_opt (textContent data) then _ else d).
  set (d1' := if truthy_opt (textContent data) then _ else d').
  assert (H1 : same_text d1 d1').
  { subst d1 d1'. destruct (truthy_opt _); [now apply same_text_appendText | exact H]. }
  set (d2 := match prop data "assistant_id" with Some _ => _ | None => d1 end).
  set (d2' := match prop data "assistant_id" with Some _ => _ | None => d1' end).
  assert (H2 : same_text d2 d2').
  { subst d2 d2'. destruct (prop data "assistant_id") as [i|]; [|exact H1].
    destruct (truthy i && a), (truthy i && a'); try exact H1.
    - now apply same_text_call_l, same_text_call_r.
    - now apply same_text_call_l.
    - now apply same_text_call_r. }
  destruct (prop data "thread_id") as [i|]; [|exact H2].
  destruct (truthy i && t), (truthy i && t'); try exact H2.
  - now apply same_text_call_l, same_text_call_r.
  - now apply same_text_call_l.
  - now apply same_text_call_r.
Qed.

Lemma ragLine_same_text (line : string) (d d' : Decoder) :
  same_text d d' ->
  same_text (fst (ragLine JSON_parse a t line d)) (fst (ragLine JSON_parse a' t' line d'))
  /\ snd (ragLine JSON_parse a t line d) = snd (ragLine JSON_parse a' t' line d').
Proof.
  intros H. unfold ragLine. destruct (trim line =? ""); cbn [fst snd negb]; [auto|].
  destruct (startsWith line "data: "); cbn [fst snd].
  - unfold ragEventLine. destruct (trim (slice 6 line) =? "[DONE]"); cbn [fst snd]; [auto|].
    assert (Hraw : same_text (ragRaw line d) (ragRaw line d')).
    { unfold ragRaw. destruct (_ && _); [now apply same_text_appendText | exact H]. }
    destruct (JSON_parse (trim (slice 6 line))) as [data|]; cbn [fst snd]; [|auto].
    destruct data; cbn [fst snd]; auto using ragData_same_text.
  - split; [|reflexivity]. unfold ragPlainLine.
    destruct (JSON_parse line) as [data|]; [|now apply same_text_appendText].
    destruct data; try (destruct (truthy_opt _)); auto using same_text_appendText.
Qed.

Lemma ragLines_same_text (lines : list string) (d d' : Decoder) :
  same_text d d' ->
  same_text (ragLines JSON_parse a t lines d) (ragLines JSON_parse a' t' lines d').
Proof.
  revert d d'. induction lines as [|line rest IH]; intros d d' H; simpl; [exact H|].
  destruct (ragLine_same_text line d d' H) as [Hs Hf].
  destruct (ragLine JSON_parse a t line d) as [e f],
           (ragLine JSON_parse a' t' line d') as [e' f'].
  simpl in Hs, Hf. subst f'. destruct f; [now apply IH | exact Hs].
Qed.

Lemma ragLoop_same_text (chunks : list string) (d d' : Decoder) :
  same_text d d' ->
  same_text (ragLoop JSON_parse a t chunks d) (ragLoop JSON_parse a' t' chunks d').
Proof.
  revert d d'. induction chunks as [|c rest IH]; intros d d' H; simpl; [exact H|].
  apply IH. now apply ragLines_same_text.
Qed.

(** X27: the metadata callbacks do not interfere with the text: whether
    [onAssistantId] and [onThreadId] are passed or not, [ragQueryStream]
    emits the same snapshots and ends the same way. *)
Theorem X27_metadata_callbacks_do_not_change_the_text :
  forall (f : Fetch),
    snapshots (calls (ragQueryStream JSON_parse a t f))
      = snapshots (calls (ragQueryStream JSON_parse a' t' f))
    /\ completion (ragQueryStream JSON_parse a t f)
       = completion (ragQueryStream JSON_parse a' t' f).
Proof.
  intros [e|r]; simpl; [auto|].
  destruct (ok r); simpl; [|auto].
  destruct (body r) as [chunks|]; simpl; [|auto].
  assert (H0 : same_text ragStart ragStart) by (repeat split).
  destruct (ragLoop_same_text chunks _ _ H0) as (Ha & Hr & Hs).
  rewrite Hr. destruct (receivedData (ragLoop JSON_parse a' t' chunks ragStart)); simpl;
    (split; [exact Hs|]); [now rewrite Ha | reflexivity].
Qed.

End Metadata.

(* ================================================================= *)
(** ** Where the answer lands *)

(** X28: when a conversation is selected, the append of a submission
    followed by an in-place update leaves that conversation with all its
    earlier messages, then the user message, then the assistant message
    holding the answer, no longer thinking and flagged by the error
    phrases only. *)
Theorem X28_answer_reaches_selected_conversation :
  forall (cid : string) (now now' : Z) (u u' placeholderText aiResponse : string)
         (s : Index.State) (i : nat) (conv : Conversation),
    selected (Some cid) = true ->
    nth_error (conversations s) i = Some conv ->
    conv_id conv = cid ->
    exists conv',
      nth_error (conversations
                   (handleMessageSent (Some cid) now' u' aiResponse true
                      (handleMessageSent (Some cid) now u placeholderText false s))) i
        = Some conv' /\
      conv_id conv' = cid /\
      messages conv' = (messages conv ++ [asked now u; answered now aiResponse])%list.
Proof.
  intros cid now now' u u' p ai s i conv Hsel Hnth Hid.
  assert (Hcur : is_current conv (Some cid) = true)
    by (simpl; now apply String.eqb_eq).
  set (s1 := handleMessageSent (Some cid) now u p false s).
  assert (H1 : nth_error (conversations s1) i
               = Some (appendMessages (newMessages now u p) conv)).
  { subst s1. unfold handleMessageSent. rewrite Hsel. cbn [conversations].
    rewrite nth_error_map, Hnth. cbn [option_map]. now rewrite Hcur. }
  exists (updateConversation ai (appendMessages (newMessages now u p) conv)).
  split; [|split].
  - rewrite (handleMessageSent_update_nth _ _ _ _ _ _ _ H1).
    unfold isTargetConversation. cbn [appendMessages is_current conv_id].
    now rewrite Hid, String.eqb_refl.
  - exact Hid.
  - cbn [updateConversation appendMessages messages newMessages].
    rewrite (updateMessages_trailing ai _ (messages conv ++ [asked now u])%list
               {| role := assistant; content := p; isNew := None;
                  isThinking := Some (p =? "Unico AI is thinking...");
                  isError := None; errorType := None;
                  timestamp := (now + 1)%Z; id := "assistant-" ++ showZ now |} []).
    + now rewrite <- app_assoc.
    + repeat split. now rewrite <- app_assoc.
Qed.

Lemma X28_answer_reaches_selected_conversation_witness :
  exists conv',
    nth_error (conversations
                 (handleMessageSent (Some "1000") 3000 "again" "An answer." true
                    (handleMessageSent (Some "1000") 2000 "again" "Friday is thinking..."
                       false failed))) 0
      = Some conv' /\
    conv_id conv' = "1000" /\
    messages conv'
      = (messages (updateConversation
                     "Sorry, I encountered an error while processing your message. Please try again."
                     (submittedConversation "hi"))
         ++ [asked 2000 "again"; answered 2000 "An answer."])%list.
Proof.
  apply (X28_answer_reaches_selected_conversation "1000" 2000 3000 "again" "again"
           "Friday is thinking..." "An answer." failed 0
           (updateConversation
              "Sorry, I encountered an error while processing your message. Please try again."
              (submittedConversation "hi"))).
  - reflexivity.
  - reflexivity.
  - reflexivity.
Defined.

(** X29: in a store without any conversation, the append of a submission
    followed by an in-place update through the same handler leaves exactly
    one conversation, the new one, selected, holding the user message and
    the answer. *)
Theorem X29_answer_reaches_first_conversation :
  forall (now now' : Z) (u u' placeholderText aiResponse : string) (s : Index.State),
    conversations s = [] ->
    conversations
      (handleMessageSent None now' u' aiResponse true
         (handleMessageSent None now u placeholderText false s))
      = [ {| conv_id := showZ now; title := titleOf u;
             messages := [asked now u; answered now aiResponse]; document := None |} ]
    /\ currentConversationId
         (handleMessageSent None now' u' aiResponse true
            (handleMessageSent None now u placeholderText false s))
       = Some (showZ now).
Proof.
  intros now now' u u' p ai s He. unfold handleMessageSent. cbn. rewrite He.
  split; reflexivity.
Qed.

Lemma X29_answer_reaches_first_conversation_witness :
  conversations
    (handleMessageSent None 3000 "hi" "Hello!" true
       (handleMessageSent None 1000 "hi" "Friday is thinking..." false emptyStore))
    = [ {| conv_id := showZ 1000; title := titleOf "hi";
           messages := [asked 1000 "hi"; answered 1000 "Hello!"]; document := None |} ]
  /\ currentConversationId
       (handleMessageSent None 3000 "hi" "Hello!" true
          (handleMessageSent None 1000 "hi" "Friday is thinking..." false emptyStore))
     = Some (showZ 1000).
Proof.
  apply (X29_answer_reaches_first_conversation 1000 3000 "hi" "hi" "Friday is thinking..."
           "Hello!" emptyStore).
  reflexivity.
Defined.
